(** * SHL assessment recommender: the retrieval and reranking pipeline

    A shallow embedding of [src/recommender/rerank.py],
    [src/recommender/retrieval.py], [src/recommender/indexer.py] and
    [src/recommender/recommend.py], with the properties of the pipeline
    that the specification states.

    Conventions of the embedding:
    - Python [int] is [Z]; list slices [l[:k]] follow Python for a
      negative bound as well;
    - Python [str] is [string]; the characters are ASCII, so [lower],
      [upper], [strip], [\d] and [\s] act on the ASCII letters, digits
      and white space and leave every other character alone;
    - Python [float] is IEEE 754 binary64, through [SpecFloat];
    - an exception is a value [Raise e] of the [result] type;
    - the embedding model, the FAISS index and the job-description
      fetcher are collaborators of the pipeline and are parameters. *)

From Stdlib Require Import ZArith Ascii String Floats.SpecFloat.
From stdpp Require Import base tactics option list strings gmap.

Local Open Scope string_scope.
Local Open Scope list_scope.
Local Open Scope Z_scope.

(** ** The Python run-time that the sources rely on *)

Module Py.

(** Exceptions that reach the callers of the pipeline. *)
Inductive exn : Type :=
| ValueError
| OverflowError
| IndexError
| External (who : string).

Inductive result (A : Type) : Type :=
| Ok (a : A)
| Raise (e : exn).
Arguments Ok {A} a.
Arguments Raise {A} e.

(** Sequencing: the first exception raised is the outcome. *)
#[global] Instance result_ret : MRet result := fun A a => Ok a.
#[global] Instance result_bind : MBind result := fun A B f r =>
  match r with
  | Ok a => f a
  | Raise e => Raise e
  end.

(** [l[:k]]: the first [k] items, or all but the last [-k] when [k]
    is negative. *)
Definition slice_to {A : Type} (l : list A) (k : Z) : list A :=
  if 0 <=? k then take (Z.to_nat k) l
  else take (Z.to_nat (Z.of_nat (length l) + k)) l.

(** [any(bs)] and [sum(bs)] over a list of booleans. *)
Definition any (bs : list bool) : bool := existsb id bs.
Definition sum (bs : list bool) : Z :=
  fold_left (fun acc (b : bool) => acc + (if b then 1 else 0)) bs 0.

(** *** Strings *)

Definition code (c : ascii) : N := N_of_ascii c.

Definition is_upper (c : ascii) : bool := ((65 <=? code c) && (code c <=? 90))%N.
Definition is_lower (c : ascii) : bool := ((97 <=? code c) && (code c <=? 122))%N.
Definition is_digit (c : ascii) : bool := ((48 <=? code c) && (code c <=? 57))%N.

(** [str.isspace] on one ASCII character: tab, line feed, vertical
    tab, form feed, carriage return, the four separators 0x1c-0x1f and
    the blank. *)
Definition is_space (c : ascii) : bool :=
  (((9 <=? code c) && (code c <=? 13)) || ((28 <=? code c) && (code c <=? 32)))%N.

Definition lower_char (c : ascii) : ascii :=
  if is_upper c then ascii_of_N (code c + 32) else c.
Definition upper_char (c : ascii) : ascii :=
  if is_lower c then ascii_of_N (code c - 32) else c.

Fixpoint map_chars (f : ascii -> ascii) (s : string) : string :=
  match s with
  | EmptyString => EmptyString
  | String c s' => String (f c) (map_chars f s')
  end.

Definition lower : string -> string := map_chars lower_char.
Definition upper : string -> string := map_chars upper_char.

Fixpoint lstrip (s : string) : string :=
  match s with
  | String c s' => if is_space c then lstrip s' else s
  | EmptyString => EmptyString
  end.

Fixpoint rstrip (s : string) : string :=
  match s with
  | EmptyString => EmptyString
  | String c s' =>
      match rstrip s' with
      | EmptyString => if is_space c then EmptyString else String c EmptyString
      | t => String c t
      end
  end.

Definition strip (s : string) : string := rstrip (lstrip s).

(** [kw in s]: [kw] occurs in [s] as a substring. *)
Fixpoint contains (kw s : string) : bool :=
  String.prefix kw s ||
  match s with
  | EmptyString => false
  | String _ s' => contains kw s'
  end.

(** The two line feeds of the literal ["\n\n"]. *)
Definition newlines : string := String "010" (String "010" EmptyString).

(** Truth value of an optional string: [None] and the empty string are false. *)
Definition truthy (o : option string) : bool :=
  match o with
  | Some (String _ _) => true
  | _ => false
  end.

End Py.

(** ** Regular expressions: the fragment of [re] that [rerank.py] uses

    A backtracking matcher in continuation-passing style. Alternatives
    are tried in Python's order: a greedy quantifier first takes one
    more repetition and gives it back only when the rest of the pattern
    fails. *)

Module re.

Inductive regex : Type :=
| Eps
| Cls (p : ascii -> bool)
| Cat (r1 r2 : regex)
| Opt (r : regex)
| Star (r : regex)
| Plus (r : regex).

(** Greedy repetition of [step]; an iteration has to consume input,
    [n] bounds the number of iterations by the length of the text. *)
Fixpoint star {A : Type} (step : string -> (string -> option A) -> option A)
    (n : nat) (s : string) (k : string -> option A) : option A :=
  match n with
  | O => k s
  | S n' =>
      match step s (fun s' =>
              if (String.length s' <? String.length s)%nat
              then star step n' s' k else None) with
      | Some a => Some a
      | None => k s
      end
  end.

(** [bt r s k]: match [r] at the head of [s] and hand the rest of the
    text to [k]; [None] when every alternative fails. *)
Fixpoint bt {A : Type} (r : regex) (s : string) (k : string -> option A)
    : option A :=
  match r with
  | Eps => k s
  | Cls p =>
      match s with
      | String c s' => if p c then k s' else None
      | EmptyString => None
      end
  | Cat r1 r2 => bt r1 s (fun s1 => bt r2 s1 k)
  | Opt r1 =>
      match bt r1 s k with
      | Some a => Some a
      | None => k s
      end
  | Star r1 => star (bt r1) (String.length s) s k
  | Plus r1 => bt r1 s (fun s1 => star (bt r1) (String.length s1) s1 k)
  end.

(** A pattern [(g)rest] whose group 1 opens the pattern: the text of
    group 1 when the pattern matches at the head of [s]. *)
Definition match_at (g rest : regex) (s : string) : option string :=
  bt g s (fun s1 =>
    bt rest s1 (fun _ =>
      Some (String.substring 0 (String.length s - String.length s1) s))).

(** [re.search]: the match at the leftmost position that has one. *)
Fixpoint search (g rest : regex) (s : string) : option string :=
  match match_at g rest s with
  | Some grp => Some grp
  | None =>
      match s with
      | String _ s' => search g rest s'
      | EmptyString => None
      end
  end.

(** Atoms: [\d], [\s], a literal character, and a literal character
    or word under [re.IGNORECASE]. *)
Definition digit : regex := Cls Py.is_digit.
Definition space : regex := Cls Py.is_space.
Definition chr (c : ascii) : regex := Cls (Ascii.eqb c).
Definition chr_i (c : ascii) : regex :=
  Cls (fun x => Ascii.eqb (Py.lower_char x) (Py.lower_char c)).
Fixpoint lit_i (w : string) : regex :=
  match w with
  | EmptyString => Eps
  | String c w' => Cat (chr_i c) (lit_i w')
  end.

End re.

(** ** Python floats: [float(str)], [float * int] and [int(float)] *)

Module PyFloat.

Definition prec : Z := 53.
Definition emax : Z := 1024.

(** An integer as a float (exact for the multipliers used here). *)
Definition of_int (z : Z) : spec_float := binary_normalize prec emax z 0 false.

Definition digit_val (c : ascii) : Z := Z.of_N (Py.code c) - 48.

(** Reads [digits] or [digits.digits]: the integer that the digits
    spell without the point, and the number of digits after it. *)
Fixpoint parse_decimal (s : string) (acc : Z) (seen_dot : bool) (frac : Z)
    : option (Z * Z) :=
  match s with
  | EmptyString => Some (acc, frac)
  | String c s' =>
      if Py.is_digit c then
        parse_decimal s' (10 * acc + digit_val c) seen_dot
                      (if seen_dot then frac + 1 else frac)
      else if Ascii.eqb c "." && negb seen_dot then
        parse_decimal s' acc true frac
      else None
  end.

Definition has_digit (s : string) : bool :=
  existsb Py.is_digit (list_ascii_of_string s).

(** [float(s)] for a plain decimal numeral [s]: the binary64 number
    nearest to [n / 10^f], ties to even; the quotient of the two
    integers is rounded once. Numerals with a sign, an exponent or
    surrounding blanks never reach this function and are not
    modelled: they are answered with [ValueError] here. *)
Definition of_str (s : string) : Py.result spec_float :=
  if negb (has_digit s) then Py.Raise Py.ValueError else
  match parse_decimal s 0 false 0 with
  | Some (Zpos n, f) =>
      Py.Ok (SFdiv prec emax (S754_finite false n 0)
                   (S754_finite false (Z.to_pos (10 ^ f)) 0))
  | Some (_, _) => Py.Ok (S754_zero false)
  | None => Py.Raise Py.ValueError
  end.

(** [x * m] for an integer [m]. *)
Definition mul_int (x : spec_float) (m : Z) : spec_float :=
  SFmul prec emax x (of_int m).

(** [int(x)]: truncation toward zero; an infinity raises
    [OverflowError], a NaN raises [ValueError]. *)
Definition to_int (x : spec_float) : Py.result Z :=
  match x with
  | S754_zero _ => Py.Ok 0
  | S754_finite s m e =>
      Py.Ok (cond_Zopp s (if 0 <=? e then Zpos m * 2 ^ e
                          else Zpos m / 2 ^ (- e)))
  | S754_infinity _ => Py.Raise Py.OverflowError
  | S754_nan => Py.Raise Py.ValueError
  end.

End PyFloat.

(** ** [src/recommender/rerank.py] *)

Module rerank.

(** A field of a metadata dict: the key may be absent, may hold
    [None], or may hold a value. *)
Inductive slot (A : Type) : Type :=
| Absent
| Null
| Has (a : A).
Arguments Absent {A}.
Arguments Null {A}.
Arguments Has {A} a.

#[global] Instance slot_eq_dec {A : Type} `{EqDecision A} : EqDecision (slot A).
Proof. solve_decision. Defined.

(** [d.get(key)] and [d.get(key, default)]: the default stands in for
    an absent key only, a stored [None] is returned as it is. *)
Definition get {A : Type} (f : slot A) : option A :=
  match f with
  | Has a => Some a
  | _ => None
  end.

Definition get_default {A : Type} (f : slot A) (d : A) : option A :=
  match f with
  | Absent => Some d
  | Null => None
  | Has a => Some a
  end.

(** A candidate: the catalog fields of one metadata row and the
    similarity score attached at query time. [Score] stands for the
    float values; the reranker only compares them for equality, as
    part of the comparison of two dicts. *)
Record candidate (Score : Type) : Type := Candidate {
  name : slot string;
  url : slot string;
  test_type : slot string;
  duration_minutes : slot Z;
  category : slot string;
  description : slot string;
  tags : slot string;
  text_blob : slot string;
  retrieval_score : slot Score
}.
Arguments Candidate {Score}.
Arguments name {Score} c.
Arguments url {Score} c.
Arguments test_type {Score} c.
Arguments duration_minutes {Score} c.
Arguments category {Score} c.
Arguments description {Score} c.
Arguments tags {Score} c.
Arguments text_blob {Score} c.
Arguments retrieval_score {Score} c.

#[global] Instance candidate_eq_dec {Score : Type} `{EqDecision Score} :
  EqDecision (candidate Score).
Proof. solve_decision. Defined.

(** The two patterns of [infer_max_duration], each with its
    multiplier: [(\d+(?:\.\d+)?)\s*hours?] and [(\d+(?:\.\d+)?)\s*mins?],
    compiled with [re.IGNORECASE]. Group 1 is [number]. *)
Definition number : re.regex :=
  re.Cat (re.Plus re.digit) (re.Opt (re.Cat (re.chr ".") (re.Plus re.digit))).
Definition hours_tail : re.regex :=
  re.Cat (re.Star re.space) (re.Cat (re.lit_i "hour") (re.Opt (re.chr_i "s"))).
Definition mins_tail : re.regex :=
  re.Cat (re.Star re.space) (re.Cat (re.lit_i "min") (re.Opt (re.chr_i "s"))).

Definition patterns : list (re.regex * re.regex * Z) :=
  [ (number, hours_tail, 60); (number, mins_tail, 1) ].

(** The loop over the patterns: the first one that [re.search] finds
    in the query decides. *)
Fixpoint first_match (ps : list (re.regex * re.regex * Z)) (query : string)
    : Py.result (option Z) :=
  match ps with
  | [] => mret None
  | (g, tail, multiplier) :: ps' =>
      match re.search g tail query with
      | Some group1 =>
          value ← PyFloat.of_str group1;
          minutes ← PyFloat.to_int (PyFloat.mul_int value multiplier);
          mret (Some minutes)
      | None => first_match ps' query
      end
  end.

Definition infer_max_duration (query : string) : Py.result (option Z) :=
  first_match patterns query.

Definition technical_kw : list string :=
  [ "java"; "python"; "sql"; "javascript"; "react"; "developer"; "engineer";
    "frontend"; "backend"; "coding"; "automation"; "testing"; "qa"; "technical";
    "programming"; "knowledge"; "skill"; "proficient"; "expertise"; "expertise" ].

Definition behavioral_kw : list string :=
  [ "collaborate"; "communication"; "personality"; "leadership"; "team";
    "interpersonal"; "behavioral"; "soft skill"; "culture"; "fit"; "manager";
    "management" ].

Definition cognitive_kw : list string :=
  [ "cognitive"; "reasoning"; "analytical"; "logical"; "problem"; "iq";
    "aptitude"; "numeracy"; "verbal"; "ability" ].

(** [any(kw in query_lower for kw in kws)] *)
Definition any_kw (kws : list string) (query_lower : string) : bool :=
  existsb (fun kw => Py.contains kw query_lower) kws.

Definition infer_desired_domains (query : string) : gmap string bool :=
  let query_lower := Py.lower query in
  let wants_technical := any_kw technical_kw query_lower in
  let wants_behavioral := any_kw behavioral_kw query_lower in
  let wants_cognitive := any_kw cognitive_kw query_lower in
  <["wants_technical" := wants_technical]>
    (<["wants_behavioral" := wants_behavioral]>
      (<["wants_cognitive" := wants_cognitive]> ∅)).

Definition mapping : gmap string string :=
  list_to_map
    [ ("K", "technical"); ("P", "behavioral"); ("C", "cognitive");
      ("L", "behavioral"); ("V", "technical"); ("N", "cognitive");
      ("R", "cognitive") ].

Definition categorize_test_type (test_type : option string) : string :=
  match test_type with
  | None | Some EmptyString => "other"
  | Some t =>
      let t := Py.strip (Py.upper t) in
      default "other" (mapping !! t)
  end.

Section with_score.
Context {Score : Type} `{EqDecision Score}.
#[local] Abbreviation cand := (candidate Score).

Definition apply_duration_filter (candidates : list cand)
    (max_minutes : option Z) : list cand :=
  match max_minutes with
  | None => candidates
  | Some max_minutes =>
      fold_left
        (fun filtered c =>
           match get (duration_minutes c) with
           | None => filtered ++ [c]
           | Some dur => if dur <=? max_minutes then filtered ++ [c] else filtered
           end)
        candidates []
  end.

(** One round of the loop that sorts the candidates into the four
    lists [tech_candidates], [behav_candidates], [cog_candidates]
    and [other_candidates]. *)
Definition categorize_step
    (buckets : list cand * list cand * list cand * list cand) (c : cand)
    : list cand * list cand * list cand * list cand :=
  let '(tech, behav, cog, other) := buckets in
  let domain := categorize_test_type (get_default (test_type c) EmptyString) in
  if String.eqb domain "technical" then (tech ++ [c], behav, cog, other)
  else if String.eqb domain "behavioral" then (tech, behav ++ [c], cog, other)
  else if String.eqb domain "cognitive" then (tech, behav, cog ++ [c], other)
  else (tech, behav, cog, other ++ [c]).

Definition balance_by_domains (candidates : list cand)
    (desired_domains : gmap string bool) (k : Z) : list cand :=
  let wants_tech := default false (desired_domains !! "wants_technical") in
  let wants_behav := default false (desired_domains !! "wants_behavioral") in
  let wants_cog := default false (desired_domains !! "wants_cognitive") in
  if negb (Py.any [wants_tech; wants_behav; wants_cog])
  then Py.slice_to candidates k
  else
    let '(tech_candidates, behav_candidates, cog_candidates, _) :=
      fold_left categorize_step candidates ([], [], [], []) in
    let num_domains := Py.sum [wants_tech; wants_behav; wants_cog] in
    if num_domains =? 0 then Py.slice_to candidates k
    else
      let slots_per_domain := Z.max 1 (k `div` num_domains) in
      let result := [] in
      let result :=
        if wants_tech
        then result ++ Py.slice_to tech_candidates slots_per_domain
        else result in
      let result :=
        if wants_behav
        then result ++ Py.slice_to behav_candidates slots_per_domain
        else result in
      let result :=
        if wants_cog
        then result ++ Py.slice_to cog_candidates slots_per_domain
        else result in
      let remaining := k - Z.of_nat (length result) in
      let result :=
        if 0 <? remaining
        then
          let all_remaining :=
            filter (fun c => c ∉ result) candidates in
          result ++ Py.slice_to all_remaining remaining
        else result in
      Py.slice_to result k.

Definition rerank (query : string) (candidates : list cand) (k : Z)
    : Py.result (list cand) :=
  max_duration ← infer_max_duration query;
  let domains := infer_desired_domains query in
  let filtered := apply_duration_filter candidates max_duration in
  let balanced := balance_by_domains filtered domains k in
  mret (Py.slice_to balanced k).

End with_score.

End rerank.

(** ** [src/recommender/indexer.py]: the loaded index and its search

    The FAISS index and its arithmetic on float32 vectors are outside
    the repository: [flat_search] is [IndexFlatIP.search] for one query
    vector, giving the row of scores and the row of labels, and
    [normalize_L2] is [faiss.normalize_L2]. *)

Module indexer.

Section with_types.
Context {Score Vec : Type}.
#[local] Abbreviation cand := (rerank.candidate Score).

Record flat_index : Type := FlatIndex {
  ntotal : Z;
  flat_search : Vec -> Z -> Py.result (list Score * list Z)
}.

(** [artifacts]: the two files on disk, when both exist; [index]
    and [meta]: the attributes of the object, [None] until loaded. *)
Record CatalogIndex : Type := Build_CatalogIndex {
  artifacts : option (flat_index * list cand);
  index : option flat_index;
  meta : option (list cand)
}.

Definition load (self : CatalogIndex) : Py.result CatalogIndex :=
  match artifacts self with
  | None => Py.Raise (Py.External "FileNotFoundError")
  | Some (i, m) =>
      mret {| artifacts := artifacts self; index := Some i; meta := Some m |}
  end.

(** [[self.meta[i] for i in idxs[0] if i < len(self.meta)]], each
    item given by the row of [self.meta] it is: the list holds the
    dicts of [self.meta] themselves, not copies. *)
Fixpoint rows_of (n : nat) (idxs : list Z) : Py.result (list nat) :=
  match idxs with
  | [] => mret []
  | i :: idxs' =>
      if i <? Z.of_nat n then
        let j := if i <? 0 then Z.of_nat n + i else i in
        if j <? 0 then Py.Raise Py.IndexError
        else rows ← rows_of n idxs'; mret (Z.to_nat j :: rows)
      else rows_of n idxs'
  end.

Variable normalize_L2 : Vec -> Vec.

Definition search (self : CatalogIndex) (query_vec : Vec) (top_k : Z)
    : Py.result (CatalogIndex * (list Score * list nat)) :=
  self ← (match index self with
           | None => load self
           | Some _ => mret self
           end);
  match index self, meta self with
  | Some idx, Some m =>
      let q := normalize_L2 query_vec in
      '(scores, idxs) ← flat_search idx q (Z.min top_k (ntotal idx));
      results ← rows_of (length m) idxs;
      mret (self, (scores, results))
  | _, _ => Py.Raise (Py.External "TypeError")
  end.

Definition get_size (self : CatalogIndex) : Py.result (CatalogIndex * Z) :=
  self ← (match index self with
           | None => load self
           | Some _ => mret self
           end);
  match index self with
  | Some idx => mret (self, ntotal idx)
  | None => Py.Raise (Py.External "AttributeError")
  end.

End with_types.

End indexer.

(** ** [src/recommender/retrieval.py] *)

Module retrieval.

Section with_collaborators.
Context {Score Vec : Type}.
#[local] Abbreviation cand := (rerank.candidate Score).

(** [fetch_jd_from_url], [Embedder.embed_text], [faiss.normalize_L2] *)
Variable fetch_jd_from_url : string -> Py.result string.
Variable embed_text : string -> Py.result Vec.
Variable normalize_L2 : Vec -> Vec.

Definition normalize_input (query_text jd_url : option string)
    : Py.result string :=
  if Py.truthy jd_url then
    jd_text ← fetch_jd_from_url (default EmptyString jd_url);
    if Py.truthy query_text then
      let combined :=
        Py.strip (default EmptyString query_text) +:+ Py.newlines +:+ jd_text in
      mret combined
    else mret jd_text
  else if Py.truthy query_text then
    mret (Py.strip (default EmptyString query_text))
  else Py.Raise Py.ValueError.

(** [candidate["retrieval_score"] = float(score)] on the dict that
    is row [row] of the metadata. *)
Definition set_score (m : list cand) (row : nat) (score : Score) : list cand :=
  alter (fun c =>
    {| rerank.name := rerank.name c;
       rerank.url := rerank.url c;
       rerank.test_type := rerank.test_type c;
       rerank.duration_minutes := rerank.duration_minutes c;
       rerank.category := rerank.category c;
       rerank.description := rerank.description c;
       rerank.tags := rerank.tags c;
       rerank.text_blob := rerank.text_blob c;
       rerank.retrieval_score := rerank.Has score |}) row m.

(** The loop over [zip(scores, candidates)]. *)
Fixpoint attach_scores (m : list cand) (scores : list Score) (rows : list nat)
    : list cand :=
  match scores, rows with
  | score :: scores', row :: rows' => attach_scores (set_score m row score) scores' rows'
  | _, _ => m
  end.

(** The service holds the index; the dicts of its metadata are
    shared with the lists that [retrieve_candidates] returns, so the
    scores written into them stay in the index. *)
Definition retrieve_candidates (index : indexer.CatalogIndex) (query : string)
    (top_k : Z) : Py.result (indexer.CatalogIndex * list cand) :=
  q_vec ← embed_text query;
  '(index, (scores, rows)) ← indexer.search normalize_L2 index q_vec top_k;
  let m := attach_scores (default [] (indexer.meta index)) scores rows in
  let candidates := omap (fun row => m !! row) rows in
  mret ({| indexer.artifacts := indexer.artifacts index;
           indexer.index := indexer.index index;
           indexer.meta := Some m |}, candidates).

End with_collaborators.

End retrieval.

(** ** [src/recommender/recommend.py] *)

Module recommend.

(** One item of the list that [recommend] returns. *)
Record recommendation : Type := Recommendation {
  assessment_name : option string;
  assessment_url : option string;
  test_type : option string;
  duration_minutes : option Z;
  category : option string;
  synthetic : bool
}.

Section with_collaborators.
Context {Score Vec : Type} `{EqDecision Score}.
#[local] Abbreviation cand := (rerank.candidate Score).

Variable fetch_jd_from_url : string -> Py.result string.
Variable embed_text : string -> Py.result Vec.
Variable normalize_L2 : Vec -> Vec.

Definition format_output (c : cand) : recommendation :=
  {| assessment_name := rerank.get_default (rerank.name c) "Unknown";
     assessment_url := rerank.get_default (rerank.url c) EmptyString;
     test_type := rerank.get (rerank.test_type c);
     duration_minutes := rerank.get (rerank.duration_minutes c);
     category := rerank.get (rerank.category c);
     synthetic := bool_decide (rerank.get (rerank.url c) = None) |}.

Definition recommend (service : indexer.CatalogIndex)
    (query jd_url : option string) (top_k : Z)
    : Py.result (indexer.CatalogIndex * list recommendation) :=
  text ← retrieval.normalize_input fetch_jd_from_url query jd_url;
  '(service, candidates) ←
    retrieval.retrieve_candidates embed_text normalize_L2 service text 50;
  match candidates with
  | [] => mret (service, [])
  | _ =>
      ranked ← rerank.rerank text candidates top_k;
      mret (service, map format_output ranked)
  end.

End with_collaborators.

End recommend.

(** ** What the specification says, in its own words

    Definitions that follow the text of the specification, to compare
    the code with. *)

Module spec.

(** What a regular expression denotes: the set of the texts it
    matches, whatever the order in which a matcher tries them. *)
Inductive star_of (P : string -> Prop) : string -> Prop :=
| star_nil : star_of P EmptyString
| star_more s1 s2 : P s1 -> star_of P s2 -> star_of P (s1 +:+ s2).

Fixpoint matches (r : re.regex) (s : string) : Prop :=
  match r with
  | re.Eps => s = EmptyString
  | re.Cls p => exists c, s = String c EmptyString /\ p c = true
  | re.Cat r1 r2 =>
      exists s1 s2, s = s1 +:+ s2 /\ matches r1 s1 /\ matches r2 s2
  | re.Opt r1 => s = EmptyString \/ matches r1 s
  | re.Star r1 => star_of (matches r1) s
  | re.Plus r1 =>
      exists s1 s2, s = s1 +:+ s2 /\ matches r1 s1 /\ star_of (matches r1) s2
  end.


(** [kw] occurs in [text] in some letter case. *)
Definition occurs_ci (kw text : string) : Prop :=
  exists pre mid post, text = pre +:+ mid +:+ post /\ Py.lower mid = kw.

(** The three flags of the dict that [infer_desired_domains] returns. *)
Definition flags (text : string) : option bool * option bool * option bool :=
  let d := rerank.infer_desired_domains text in
  (d !! "wants_technical", d !! "wants_behavioral", d !! "wants_cognitive").

(** The lookup table of section 4.4, from a code to its domain. *)
Definition domain_of_code (code : string) : string :=
  if decide (code ∈ ["K"; "V"]) then "technical"
  else if decide (code ∈ ["P"; "L"]) then "behavioral"
  else if decide (code ∈ ["C"; "N"; "R"]) then "cognitive"
  else "other".

Definition domains : list string :=
  ["technical"; "behavioral"; "cognitive"; "other"].

Section with_score.
Context {Score : Type} `{EqDecision Score}.
#[local] Abbreviation cand := (rerank.candidate Score).

(** The domain of a candidate, by [categorize_test_type]. *)
Definition domain_of (c : cand) : string :=
  rerank.categorize_test_type
    (rerank.get_default (rerank.test_type c) EmptyString).

(** A bucket: the candidates of one domain, in rank order. *)
Definition bucket (domain : string) (candidates : list cand) : list cand :=
  filter (fun c => domain_of c = domain) candidates.

(** The fourth bucket: the candidates of none of the three domains. *)
Definition others (candidates : list cand) : list cand :=
  filter (fun c => domain_of c ∉ ["technical"; "behavioral"; "cognitive"])
         candidates.

(** A candidate passes the duration filter when its duration is
    unknown or at most [max_minutes]. *)
Definition within (max_minutes : Z) (c : cand) : Prop :=
  match rerank.get (rerank.duration_minutes c) with
  | None => True
  | Some dur => dur <= max_minutes
  end.

#[global] Instance within_dec max_minutes c : Decision (within max_minutes c).
Proof. unfold within. destruct (rerank.get _); apply _. Defined.

(** [balance_by_domains] as section 4.4 describes it, for a count
    [k] of slots. *)
Definition balance_by_domains (candidates : list cand)
    (technical behavioral cognitive : bool) (k : nat) : list cand :=
  if negb (technical || behavioral || cognitive) then take k candidates
  else
    let n := (Nat.b2n technical + Nat.b2n behavioral + Nat.b2n cognitive)%nat in
    let slotsPerDomain := Nat.max 1 (k / n) in
    let picked :=
      (if technical then take slotsPerDomain (bucket "technical" candidates) else [])
      ++ (if behavioral then take slotsPerDomain (bucket "behavioral" candidates) else [])
      ++ (if cognitive then take slotsPerDomain (bucket "cognitive" candidates) else []) in
    let fill :=
      take (k - length picked) (filter (fun c => c ∉ picked) candidates) in
    take k (picked ++ fill).

End with_score.

End spec.

(** ** A small catalog to evaluate the pipeline on *)

Module sample.

Definition item (n t : string) (d : rerank.slot Z) : rerank.candidate Z :=
  {| rerank.name := rerank.Has n;
     rerank.url := rerank.Has ("https://www.shl.com/products/" +:+ n);
     rerank.test_type := rerank.Has t;
     rerank.duration_minutes := d;
     rerank.category := rerank.Has "Assessment";
     rerank.description := rerank.Null;
     rerank.tags := rerank.Null;
     rerank.text_blob := rerank.Has n;
     rerank.retrieval_score := rerank.Absent |}.

Definition java : rerank.candidate Z := item "java" "K" (rerank.Has 45).
Definition sql : rerank.candidate Z := item "sql" "K" (rerank.Has 30).
Definition python : rerank.candidate Z := item "python" "K" rerank.Null.
Definition react : rerank.candidate Z := item "react" "k" (rerank.Has 20).
Definition verbal : rerank.candidate Z := item "verbal" "V" (rerank.Has 15).
Definition selenium : rerank.candidate Z := item "selenium" "K" (rerank.Has 25).
Definition opq : rerank.candidate Z := item "opq" "P" (rerank.Has 25).
Definition mq : rerank.candidate Z := item "mq" "P" rerank.Absent.
Definition lead : rerank.candidate Z := item "lead" "L" (rerank.Has 60).
Definition sjt : rerank.candidate Z := item "sjt" "P" (rerank.Has 35).
Definition team : rerank.candidate Z := item "team" "L" (rerank.Has 10).
Definition numerical : rerank.candidate Z := item "numerical" "N" (rerank.Has 18).
Definition survey : rerank.candidate Z := item "survey" "S" (rerank.Has 5).

(** A candidate whose metadata has no URL. *)
Definition draft : rerank.candidate Z :=
  {| rerank.name := rerank.Absent;
     rerank.url := rerank.Null;
     rerank.test_type := rerank.Null;
     rerank.duration_minutes := rerank.Null;
     rerank.category := rerank.Null;
     rerank.description := rerank.Null;
     rerank.tags := rerank.Null;
     rerank.text_blob := rerank.Null;
     rerank.retrieval_score := rerank.Absent |}.

Definition catalog : list (rerank.candidate Z) :=
  [ java; opq; numerical; sql; mq; python; lead; survey; react; sjt;
    verbal; team; selenium; draft ].

(** A query with a duration of [10^309] hours, beyond the floats. *)
Fixpoint zeros (n : nat) : string :=
  match n with
  | O => EmptyString
  | S n' => String "0" (zeros n')
  end.
Definition huge_hours : string := "1" +:+ zeros 309 +:+ " hours".

(** The flags [{technical: true, behavioral: true}]. *)
Definition tech_and_behav : gmap string bool :=
  <["wants_technical" := true]> (<["wants_behavioral" := true]> ∅).

(** Collaborators for the whole pipeline: a fetcher that answers
    every URL with one text, an embedder with a single vector, and a
    flat index that answers with the first [k] rows and made-up
    scores. *)
Definition fetch (u : string) : Py.result string :=
  Py.Ok "Java developer who can collaborate".
Definition embed (t : string) : Py.result unit := Py.Ok tt.
Definition flat : indexer.flat_index (Score := Z) (Vec := unit) :=
  {| indexer.ntotal := Z.of_nat (length catalog);
     indexer.flat_search := fun _ k =>
       Py.Ok (take (Z.to_nat k) (map (fun i => 100 - Z.of_nat i) (seq 0 (length catalog))),
              take (Z.to_nat k) (map Z.of_nat (seq 0 (length catalog)))) |}.
Definition service : indexer.CatalogIndex (Score := Z) (Vec := unit) :=
  {| indexer.artifacts := Some (flat, catalog);
     indexer.index := Some flat;
     indexer.meta := Some catalog |}.

Definition recommend := recommend.recommend (Score := Z) fetch embed id service.

End sample.

(** ** [src/utils/jd_utils.py]: the helpers beside the fetcher *)

Module jd_utils.

Definition technical_keywords : list string :=
  [ "java"; "python"; "sql"; "javascript"; "react"; "developer"; "engineer";
    "frontend"; "backend"; "coding"; "automation"; "selenium"; "testing";
    "qa"; "technical"; "programming"; "knowledge"; "skill" ].

Definition behavioral_keywords : list string :=
  [ "collaborate"; "communication"; "personality"; "leadership"; "team";
    "interpersonal"; "behavioral"; "soft skills"; "culture fit"; "profile";
    "leadership"; "management" ].

Definition cognitive_keywords : list string :=
  [ "cognitive"; "reasoning"; "analytical"; "logical"; "problem solving";
    "iq"; "aptitude"; "numeracy"; "verbal" ].

Definition extract_keywords (text : string) : gmap string bool :=
  let text_lower := Py.lower text in
  let wants_technical := rerank.any_kw technical_keywords text_lower in
  let wants_behavioral := rerank.any_kw behavioral_keywords text_lower in
  let wants_cognitive := rerank.any_kw cognitive_keywords text_lower in
  <["wants_technical" := wants_technical]>
    (<["wants_behavioral" := wants_behavioral]>
      (<["wants_cognitive" := wants_cognitive]> ∅)).

Definition mapping : gmap string string :=
  list_to_map
    [ ("K", "technical"); ("P", "behavioral"); ("C", "cognitive");
      ("L", "behavioral"); ("V", "technical"); ("N", "cognitive");
      ("R", "cognitive") ].

(** [mapping.get(test_type, 'other')]: the code is looked up as it is;
    [None] is no key of the table. *)
Definition categorize_test_type (test_type : option string) : string :=
  match test_type with
  | None => "other"
  | Some t => default "other" (mapping !! t)
  end.

End jd_utils.

(** ** [src/evaluation/metrics.py]: recall and precision at [k] *)

Module metrics.

(** [a / b] on two integers: the binary64 number nearest to the
    quotient; a zero divisor raises [ZeroDivisionError], a quotient
    beyond the floats raises [OverflowError]. *)
Definition true_div (a b : Z) : Py.result spec_float :=
  match b with
  | Z0 => Py.Raise (Py.External "ZeroDivisionError")
  | _ =>
      match a with
      | Z0 => Py.Ok (S754_zero (b <? 0))
      | _ =>
          match SFdiv PyFloat.prec PyFloat.emax
                  (S754_finite (a <? 0) (Z.to_pos (Z.abs a)) 0)
                  (S754_finite (b <? 0) (Z.to_pos (Z.abs b)) 0) with
          | S754_infinity _ => Py.Raise Py.OverflowError
          | q => Py.Ok q
          end
      end
  end.

(** The float [0.0] and the float [1.0]. *)
Definition zero : spec_float := S754_zero false.
Definition one : spec_float := S754_finite false 4503599627370496 (-52).

(** [len(relevant & set(predicted[:k]))] *)
Definition hits (relevant : gset string) (predicted : list string) (k : Z) : Z :=
  let top_k : gset string := list_to_set (Py.slice_to predicted k) in
  Z.of_nat (size (relevant ∩ top_k)).

Definition recall_at_k (relevant : gset string) (predicted : list string) (k : Z)
    : Py.result spec_float :=
  if decide (relevant = ∅) then Py.Ok zero
  else true_div (hits relevant predicted k) (Z.of_nat (size relevant)).

Definition precision_at_k (relevant : gset string) (predicted : list string) (k : Z)
    : Py.result spec_float :=
  if k =? 0 then Py.Ok zero
  else true_div (hits relevant predicted k) k.

End metrics.

(** ** [src/main.py]: the [/recommend] endpoint

    The handler answers with a [RecommendResponse] or with an
    [HTTPException]. The messages of the exceptions it wraps come from
    [str(e)], a parameter here. What the request leaves in the engine
    is the index state that [recommend.recommend] returns and is not
    part of the answer. *)

Module main.

Definition DEFAULT_TOP_K : Z := 10.
Definition MAX_RECOMMENDATIONS : Z := 10.

Record RecommendRequest : Type := Request {
  query : option string;
  jd_url : option string
}.

(** [AssessmentRecommendation]: name and URL are required strings,
    the other fields are optional. *)
Record AssessmentRecommendation : Type := Assessment {
  assessment_name : string;
  assessment_url : string;
  test_type : option string;
  duration_minutes : option Z;
  category : option string
}.

Record RecommendResponse : Type := Response {
  results : list AssessmentRecommendation;
  query_processed : option string;
  count : Z
}.

Inductive answer : Type :=
| Returns (r : RecommendResponse)
| HTTPException (status_code : Z) (detail : string).

(** The constructor of [AssessmentRecommendation] on one output record:
    the model validation refuses [None] for a required string. *)
Definition to_assessment (r : recommend.recommendation)
    : Py.result AssessmentRecommendation :=
  match recommend.assessment_name r, recommend.assessment_url r with
  | Some n, Some u =>
      mret {| assessment_name := n;
              assessment_url := u;
              test_type := recommend.test_type r;
              duration_minutes := recommend.duration_minutes r;
              category := recommend.category r |}
  | _, _ => Py.Raise (Py.External "ValidationError")
  end.

(** The list comprehension over the results: the first record that is
    refused ends it. *)
Fixpoint to_assessments (rs : list recommend.recommendation)
    : Py.result (list AssessmentRecommendation) :=
  match rs with
  | [] => mret []
  | r :: rs' =>
      a ← to_assessment r;
      rest ← to_assessments rs';
      mret (a :: rest)
  end.

Section with_collaborators.
Context {Score Vec : Type} `{EqDecision Score}.

Variable fetch_jd_from_url : string -> Py.result string.
Variable embed_text : string -> Py.result Vec.
Variable normalize_L2 : Vec -> Vec.
(** [Embedder()], which loads the model, and [str(e)]. *)
Variable load_model : Py.result unit.
Variable message : Py.exn -> string.

(** The globals of the module: the engine once it is built, and the
    two index files when both exist. *)
Record globals : Type := Globals {
  _engine : option (indexer.CatalogIndex (Score := Score) (Vec := Vec));
  files : option (indexer.flat_index (Score := Score) (Vec := Vec)
                  * list (rerank.candidate Score))
}.

Definition get_engine (g : globals)
    : Py.result (globals * indexer.CatalogIndex (Score := Score) (Vec := Vec)) :=
  match _engine g with
  | Some engine => mret (g, engine)
  | None =>
      match files g with
      | None => Py.Raise (Py.External "FileNotFoundError")
      | Some _ =>
          _ ← load_model;
          index ← indexer.load
                    {| indexer.artifacts := files g;
                       indexer.index := None;
                       indexer.meta := None |};
          mret ({| _engine := Some index; files := files g |}, index)
      end
  end.

(** The body of the [try] block after the validation of the input. *)
Definition process (g : globals) (payload : RecommendRequest)
    : Py.result RecommendResponse :=
  '(_, engine) ← get_engine g;
  '(_, results) ←
    recommend.recommend fetch_jd_from_url embed_text normalize_L2 engine
      (query payload) (jd_url payload) DEFAULT_TOP_K;
  let results := Py.slice_to results MAX_RECOMMENDATIONS in
  match results with
  | [] => mret {| results := []; query_processed := None; count := 0 |}
  | _ =>
      recommendations ← to_assessments results;
      mret {| results := recommendations;
              query_processed :=
                Some (if Py.truthy (query payload)
                      then default EmptyString (query payload)
                      else "JD URL provided");
              count := Z.of_nat (length recommendations) |}
  end.

Definition recommend (g : globals) (payload : RecommendRequest) : answer :=
  if negb (Py.truthy (query payload)) && negb (Py.truthy (jd_url payload))
  then HTTPException 400 "Either 'query' or 'jd_url' must be provided"
  else
    match process g payload with
    | Py.Ok response => Returns response
    | Py.Raise e =>
        HTTPException 500 ("Recommendation processing failed: " +:+ message e)
    end.

End with_collaborators.

End main.

(** ** More of the small catalog *)

Module sample_api.

(** A catalog whose second row has a null URL. *)
Definition catalog : list (rerank.candidate Z) :=
  [ sample.java; sample.draft; sample.opq ].

Definition flat : indexer.flat_index (Score := Z) (Vec := unit) :=
  {| indexer.ntotal := 3;
     indexer.flat_search := fun _ k =>
       Py.Ok (take (Z.to_nat k) [90; 80; 70], take (Z.to_nat k) [0; 1; 2]) |}.

Definition message (e : Py.exn) : string :=
  match e with
  | Py.ValueError => "ValueError"
  | Py.OverflowError => "OverflowError"
  | Py.IndexError => "IndexError"
  | Py.External who => who
  end.

(** Globals before the first request, with the index files of
    [sample.catalog] on disk, and with those of [catalog]. *)
Definition fresh : main.globals (Score := Z) (Vec := unit) :=
  {| main._engine := None; main.files := Some (sample.flat, sample.catalog) |}.
Definition fresh_null_url : main.globals (Score := Z) (Vec := unit) :=
  {| main._engine := None; main.files := Some (flat, catalog) |}.

Definition handler :=
  main.recommend (Score := Z) sample.fetch sample.embed id (Py.Ok tt) message.

(** An unloaded index object over the files of [sample.catalog]. *)
Definition unloaded : indexer.CatalogIndex (Score := Z) (Vec := unit) :=
  {| indexer.artifacts := Some (sample.flat, sample.catalog);
     indexer.index := None;
     indexer.meta := None |}.

End sample_api.

(** ** Predicates used to state the further properties *)

Module shape.

(** A float that is [+0.0], a positive finite number or [+inf]. *)
Definition nonneg (x : spec_float) : bool :=
  match x with
  | S754_zero false | S754_finite false _ _ | S754_infinity false => true
  | _ => false
  end.

(** A positive finite float. *)
Definition positive (x : spec_float) : bool :=
  match x with
  | S754_finite false _ _ => true
  | _ => false
  end.

(** A text of decimal digits only. *)
Fixpoint all_digits (s : string) : bool :=
  match s with
  | EmptyString => true
  | String c s' => Py.is_digit c && all_digits s'
  end.

(** A text of white space only. *)
Fixpoint all_space (s : string) : bool :=
  match s with
  | EmptyString => true
  | String c s' => Py.is_space c && all_space s'
  end.

(** Two candidates with the same catalog fields: they differ in the
    attached score at most. *)
Definition same_item {Score : Type} (c c' : rerank.candidate Score) : Prop :=
  rerank.name c = rerank.name c' /\
  rerank.url c = rerank.url c' /\
  rerank.test_type c = rerank.test_type c' /\
  rerank.duration_minutes c = rerank.duration_minutes c' /\
  rerank.category c = rerank.category c' /\
  rerank.description c = rerank.description c' /\
  rerank.tags c = rerank.tags c' /\
  rerank.text_blob c = rerank.text_blob c'.

(** The candidates that the desired domains contribute, before the
    remaining slots are filled. *)
Definition picked {Score : Type} `{EqDecision Score}
    (candidates : list (rerank.candidate Score))
    (technical behavioral cognitive : bool) (k : nat)
    : list (rerank.candidate Score) :=
  let n := (Nat.b2n technical + Nat.b2n behavioral + Nat.b2n cognitive)%nat in
  let slots := Nat.max 1 (k / n) in
  (if technical then take slots (spec.bucket "technical" candidates) else [])
  ++ (if behavioral then take slots (spec.bucket "behavioral" candidates) else [])
  ++ (if cognitive then take slots (spec.bucket "cognitive" candidates) else []).

(** The row of the metadata that a label of FAISS stands for. *)
Definition row_of_label (n : nat) (i : Z) : nat :=
  Z.to_nat (if i <? 0 then Z.of_nat n + i else i).

(** A float between [0.0] and [1.0]: the zero, or a positive finite
    float [m * 2^e] with [m * 2^e <= 1]. *)
Definition in_unit_interval (x : spec_float) : bool :=
  match x with
  | S754_zero false => true
  | S754_finite false m e => (e <=? 0) && (Z.pos m <=? 2 ^ (- e))
  | _ => false
  end.

(** The mantissa that a shift record can round to at most: the
    mantissa itself when nothing was shifted out, one more otherwise. *)
Definition round_up (mrs : shr_record) : Z :=
  shr_m mrs + (if shr_r mrs || shr_s mrs then 1 else 0).

(** The invariant of the shifts of a rounding: the mantissa is not
    negative, the exponent is not positive, and what the record can
    round to is at most [2 ^ (- e)]. *)
Definition below_one (mrs : shr_record) (e : Z) : Prop :=
  0 <= shr_m mrs /\ e <= 0 /\ round_up mrs <= 2 ^ (- e).

End shape.

(** * Properties *)

(** ** Strings, slices and the [result] type *)

Section runtime_facts.

Lemma app_cons (c : ascii) (a b : string) :
  String c a +:+ b = String c (a +:+ b).
Proof. reflexivity. Qed.

Lemma app_empty_l (s : string) : EmptyString +:+ s = s.
Proof. reflexivity. Qed.

Lemma app_empty_r (s : string) : s +:+ EmptyString = s.
Proof.
  induction s as [|c s IH]; [reflexivity|].
  by rewrite app_cons, IH.
Qed.

Lemma app_string_assoc (a b c : string) : (a +:+ b) +:+ c = a +:+ (b +:+ c).
Proof.
  induction a as [|x a IH]; [reflexivity|].
  by rewrite !app_cons, IH.
Qed.

Lemma length_app_string (a b : string) :
  String.length (a +:+ b) = (String.length a + String.length b)%nat.
Proof.
  induction a as [|x a IH]; [reflexivity|].
  rewrite app_cons. simpl. by rewrite IH.
Qed.

Lemma map_chars_app (f : ascii -> ascii) (a b : string) :
  Py.map_chars f (a +:+ b) = Py.map_chars f a +:+ Py.map_chars f b.
Proof.
  induction a as [|x a IH]; [reflexivity|].
  rewrite app_cons. simpl. by rewrite IH, app_cons.
Qed.

Lemma prefix_app (kw post : string) : String.prefix kw (kw +:+ post) = true.
Proof.
  induction kw as [|c kw IH].
  - by destruct post.
  - rewrite app_cons. simpl.
    destruct (ascii_dec c c); [exact IH | congruence].
Qed.

Lemma contains_unfold (kw s : string) :
  Py.contains kw s =
  String.prefix kw s ||
  match s with
  | EmptyString => false
  | String _ s' => Py.contains kw s'
  end.
Proof. by destruct s. Qed.

Lemma contains_app (kw pre post : string) :
  Py.contains kw (pre +:+ kw +:+ post) = true.
Proof.
  induction pre as [|c pre IH].
  - by rewrite app_empty_l, contains_unfold, prefix_app.
  - rewrite app_cons, contains_unfold, IH. apply orb_true_r.
Qed.

(** A keyword that occurs in some letter case is found in the
    lower-cased text. *)
Lemma contains_lower (kw text : string) :
  spec.occurs_ci kw text -> Py.contains kw (Py.lower text) = true.
Proof.
  intros (pre & mid & post & -> & <-).
  unfold Py.lower. rewrite !map_chars_app. apply contains_app.
Qed.

Lemma any_kw_intro (kws : list string) (kw text : string) :
  kw ∈ kws -> spec.occurs_ci kw text ->
  rerank.any_kw kws (Py.lower text) = true.
Proof.
  intros Hin Hocc. unfold rerank.any_kw.
  apply existsb_exists. exists kw. split.
  - by apply list_elem_of_In.
  - by apply contains_lower.
Qed.

Lemma slice_to_nonneg {A : Type} (l : list A) (k : Z) :
  0 <= k -> Py.slice_to l k = take (Z.to_nat k) l.
Proof. intros Hk. unfold Py.slice_to. by rewrite (proj2 (Z.leb_le 0 k) Hk). Qed.

Lemma slice_to_sublist {A : Type} (l : list A) (k : Z) :
  Py.slice_to l k `sublist_of` l.
Proof. unfold Py.slice_to. destruct (0 <=? k); apply sublist_take. Qed.

Lemma slice_to_length {A : Type} (l : list A) (k : Z) :
  0 <= k -> Z.of_nat (length (Py.slice_to l k)) <= k.
Proof. intros Hk. rewrite slice_to_nonneg, length_take by done. lia. Qed.

Lemma slice_to_idemp {A : Type} (l : list A) (k : Z) :
  0 <= k -> Py.slice_to (Py.slice_to l k) k = Py.slice_to l k.
Proof.
  intros Hk. rewrite !slice_to_nonneg by done.
  rewrite take_take. f_equal. lia.
Qed.

(** The loop [for c in l: if p(c): acc.append(c)] is a filter. *)
Lemma fold_left_append_filter {A : Type} (P : A -> Prop) `{forall a, Decision (P a)}
    (step : list A -> A -> list A) (l acc : list A) :
  (forall acc a, step acc a = if decide (P a) then acc ++ [a] else acc) ->
  fold_left step l acc = acc ++ filter P l.
Proof.
  intros Hstep. revert acc.
  induction l as [|a l IH]; intros acc; simpl.
  - by rewrite app_nil_r.
  - rewrite IH, Hstep, filter_cons.
    destruct (decide (P a)); [by rewrite <- app_assoc | done].
Qed.

End runtime_facts.

(** ** [categorize_test_type] *)

Section categorize_facts.

Lemma unrecognized_code (code : string) :
  code ∉ ["K"; "V"; "P"; "L"; "C"; "N"; "R"] ->
  rerank.mapping !! code = None /\ spec.domain_of_code code = "other".
Proof.
  rewrite !not_elem_of_cons. intros (HK & HV & HP & HL & HC & HN & HR & _).
  split.
  - apply not_elem_of_list_to_map_1. simpl.
    rewrite !not_elem_of_cons. repeat (split; [done|]). apply not_elem_of_nil.
  - unfold spec.domain_of_code.
    rewrite !decide_False; [done|..]; rewrite !not_elem_of_cons;
      repeat (split; [done|]); apply not_elem_of_nil.
Qed.

Lemma mapping_lookup (code : string) :
  default "other" (rerank.mapping !! code) = spec.domain_of_code code.
Proof.
  destruct (decide (code ∈ ["K"; "V"; "P"; "L"; "C"; "N"; "R"])) as [Hin|Hout].
  - repeat (apply elem_of_cons in Hin as [->|Hin]; [by vm_compute|]).
    by apply elem_of_nil in Hin.
  - destruct (unrecognized_code code Hout) as [-> ->]. reflexivity.
Qed.

Lemma categorize_normalizes (t : string) :
  rerank.categorize_test_type (Some t) =
  spec.domain_of_code (Py.strip (Py.upper t)).
Proof.
  destruct t as [|c t]; [by vm_compute|].
  unfold rerank.categorize_test_type. apply mapping_lookup.
Qed.

Lemma domain_of_code_range (code : string) :
  spec.domain_of_code code ∈ spec.domains.
Proof.
  unfold spec.domain_of_code, spec.domains.
  repeat case_decide; rewrite !elem_of_cons; tauto.
Qed.

(** C10. [categorize_test_type] follows the fixed table K, V to
    technical, P, L to behavioral and C, N, R to cognitive; an absent
    code and a code that the table does not recognize map to other. A
    code is looked up in upper case and without surrounding blanks;
    the result is always one of the four domains. *)
Theorem categorize_test_type_table (code : string) :
  rerank.categorize_test_type (Some "K") = "technical" /\
  rerank.categorize_test_type (Some "V") = "technical" /\
  rerank.categorize_test_type (Some "P") = "behavioral" /\
  rerank.categorize_test_type (Some "L") = "behavioral" /\
  rerank.categorize_test_type (Some "C") = "cognitive" /\
  rerank.categorize_test_type (Some "N") = "cognitive" /\
  rerank.categorize_test_type (Some "R") = "cognitive" /\
  rerank.categorize_test_type None = "other" /\
  rerank.categorize_test_type (Some EmptyString) = "other" /\
  (rerank.categorize_test_type (Some code) ∈ spec.domains) /\
  (Py.strip (Py.upper code) ∉ ["K"; "V"; "P"; "L"; "C"; "N"; "R"] ->
   rerank.categorize_test_type (Some code) = "other").
Proof.
  repeat (split; [by vm_compute|]).
  rewrite categorize_normalizes. split.
  - apply domain_of_code_range.
  - intros Hout. by destruct (unrecognized_code _ Hout).
Qed.

Lemma categorize_test_type_table_witness :
  (Py.strip (Py.upper "S") ∉ ["K"; "V"; "P"; "L"; "C"; "N"; "R"]) /\
  rerank.categorize_test_type (Some "S") = "other".
Proof.
  assert (H : Py.strip (Py.upper "S") ∉ ["K"; "V"; "P"; "L"; "C"; "N"; "R"]).
  { apply (bool_decide_unpack _). by vm_compute. }
  split; [exact H|].
  exact (proj2 (proj2 (proj2 (proj2 (proj2 (proj2 (proj2 (proj2 (proj2
    (proj2 (categorize_test_type_table "S")))))))))) H).
Defined.

End categorize_facts.

(** ** [infer_desired_domains] *)

Section domain_facts.

Lemma flags_eq (text : string) :
  let d := rerank.infer_desired_domains text in
  d !! "wants_technical"
    = Some (rerank.any_kw rerank.technical_kw (Py.lower text)) /\
  d !! "wants_behavioral"
    = Some (rerank.any_kw rerank.behavioral_kw (Py.lower text)) /\
  d !! "wants_cognitive"
    = Some (rerank.any_kw rerank.cognitive_kw (Py.lower text)).
Proof.
  unfold rerank.infer_desired_domains. cbv zeta.
  rewrite lookup_insert_eq.
  rewrite lookup_insert_ne, lookup_insert_eq by done.
  rewrite !lookup_insert_ne, lookup_insert_eq by done.
  done.
Qed.

Lemma keyword_sets :
  ("developer" ∈ rerank.technical_kw) /\ ("sql" ∈ rerank.technical_kw) /\
  ("coding" ∈ rerank.technical_kw) /\
  ("leadership" ∈ rerank.behavioral_kw) /\ ("collaborate" ∈ rerank.behavioral_kw) /\
  ("team" ∈ rerank.behavioral_kw) /\
  ("reasoning" ∈ rerank.cognitive_kw) /\ ("aptitude" ∈ rerank.cognitive_kw) /\
  ("numeracy" ∈ rerank.cognitive_kw) /\ ("numerical" ∉ rerank.cognitive_kw).
Proof. repeat split; apply (bool_decide_unpack _); by vm_compute. Qed.

(** [kw] is one of the listed words, each a keyword of the set, and it
    occurs in the text: the flag of the set is true. *)
Ltac keyword_in Hin Hocc :=
  f_equal;
  match type of Hocc with
  | spec.occurs_ci ?kw _ => apply (any_kw_intro _ kw); [|exact Hocc]
  end;
  repeat (apply elem_of_cons in Hin as [->|Hin]; [done|]);
  by apply elem_of_nil in Hin.

(** Every combination of the three flags is the answer to some text. *)
Lemma flags_independent (t b c : bool) :
  exists text, spec.flags text = (Some t, Some b, Some c).
Proof.
  destruct t, b, c.
  - by exists "sql team iq".
  - by exists "sql team".
  - by exists "sql iq".
  - by exists "sql".
  - by exists "team iq".
  - by exists "team".
  - by exists "iq".
  - by exists "hello".
Qed.

(** C5, as the code has it. [infer_desired_domains] tests the
    lower-cased text for the keywords of three fixed sets and returns
    three independent booleans. The technical set has developer, sql
    and coding, the behavioral set has leadership, collaborate and
    team, the cognitive set has reasoning, aptitude and numeracy: a
    text that holds one of them, in any letter case, has the flag of
    that domain set. The word numerical is not a keyword. *)
Theorem infer_desired_domains_keywords (text kw : string) :
  spec.occurs_ci kw text ->
  (kw ∈ ["developer"; "sql"; "coding"] ->
   rerank.infer_desired_domains text !! "wants_technical" = Some true) /\
  (kw ∈ ["leadership"; "collaborate"; "team"] ->
   rerank.infer_desired_domains text !! "wants_behavioral" = Some true) /\
  (kw ∈ ["reasoning"; "aptitude"; "numeracy"] ->
   rerank.infer_desired_domains text !! "wants_cognitive" = Some true) /\
  (forall t b c : bool, exists text', spec.flags text' = (Some t, Some b, Some c)) /\
  ("numerical" ∉ rerank.cognitive_kw).
Proof.
  intros Hocc.
  destruct (flags_eq text) as (Ht & Hb & Hc).
  destruct keyword_sets as (T1 & T2 & T3 & B1 & B2 & B3 & C1 & C2 & C3 & Hnum).
  repeat split.
  - intros Hin. rewrite Ht. keyword_in Hin Hocc.
  - intros Hin. rewrite Hb. keyword_in Hin Hocc.
  - intros Hin. rewrite Hc. keyword_in Hin Hocc.
  - apply flags_independent.
  - exact Hnum.
Qed.

Lemma infer_desired_domains_keywords_witness :
  spec.occurs_ci "sql" "Senior SQL developer" /\
  rerank.infer_desired_domains "Senior SQL developer" !! "wants_technical"
  = Some true.
Proof.
  assert (H : spec.occurs_ci "sql" "Senior SQL developer").
  { exists "Senior ", "SQL", " developer". split; reflexivity. }
  split; [exact H|].
  apply (proj1 (infer_desired_domains_keywords "Senior SQL developer" "sql" H)).
  apply (bool_decide_unpack _). by vm_compute.
Defined.

(** The text "numerical" holds the word numerical and yet the
    cognitive flag is false. *)
Lemma numerical_is_no_keyword :
  spec.occurs_ci "numerical" "numerical" /\
  rerank.infer_desired_domains "numerical" !! "wants_cognitive" = Some false.
Proof.
  split.
  - exists EmptyString, "numerical", EmptyString. split; reflexivity.
  - by vm_compute.
Qed.

End domain_facts.

(** ** [apply_duration_filter] *)

Section duration_filter_facts.
Context {Score : Type} `{EqDecision Score}.
Implicit Types (c : rerank.candidate Score) (candidates : list (rerank.candidate Score)).

Lemma apply_duration_filter_filter candidates (max_minutes : Z) :
  rerank.apply_duration_filter candidates (Some max_minutes)
  = filter (spec.within max_minutes) candidates.
Proof.
  unfold rerank.apply_duration_filter.
  rewrite (fold_left_append_filter (spec.within max_minutes)); [done|].
  intros acc c.
  destruct (decide (spec.within max_minutes c)) as [Hw|Hw];
    unfold spec.within in Hw;
    destruct (rerank.get (rerank.duration_minutes c)) as [dur|]; try done.
  - by rewrite (proj2 (Z.leb_le dur max_minutes)).
  - rewrite (proj2 (Z.leb_gt dur max_minutes)); [done | lia].
Qed.

(** C6. Without a bound the candidates are returned as they are; with
    a bound [max_minutes] the result is the list of the candidates
    whose duration is unknown or at most the bound, in their order. A
    candidate of 45 minutes passes a bound of 60 and not a bound of 30,
    and a candidate without a duration passes every bound. *)
Theorem apply_duration_filter_spec candidates (max_minutes : Z) c :
  rerank.apply_duration_filter candidates None = candidates /\
  rerank.apply_duration_filter candidates (Some max_minutes)
    = filter (spec.within max_minutes) candidates /\
  (rerank.apply_duration_filter candidates (Some max_minutes)
     `sublist_of` candidates) /\
  (c ∈ candidates ->
   rerank.get (rerank.duration_minutes c) = Some 45 ->
   (c ∈ rerank.apply_duration_filter candidates (Some 60)) /\
   (c ∉ rerank.apply_duration_filter candidates (Some 30))) /\
  (c ∈ candidates ->
   rerank.get (rerank.duration_minutes c) = None ->
   forall bound, c ∈ rerank.apply_duration_filter candidates bound).
Proof.
  split; [reflexivity|]. split; [apply apply_duration_filter_filter|].
  split; [rewrite apply_duration_filter_filter; apply sublist_filter|].
  split.
  - intros Hin Hdur. rewrite !apply_duration_filter_filter.
    rewrite !list_elem_of_filter. unfold spec.within. rewrite Hdur.
    split; [split; [lia | done] | intros [? _]; lia].
  - intros Hin Hdur [bound|]; [|done].
    rewrite apply_duration_filter_filter, list_elem_of_filter.
    unfold spec.within. by rewrite Hdur.
Qed.

End duration_filter_facts.

Lemma apply_duration_filter_spec_witness :
  (sample.java ∈ sample.catalog) /\
  rerank.get (rerank.duration_minutes sample.java) = Some 45 /\
  (sample.java ∈ rerank.apply_duration_filter sample.catalog (Some 60)) /\
  (sample.java ∉ rerank.apply_duration_filter sample.catalog (Some 30)).
Proof.
  assert (Hin : sample.java ∈ sample.catalog) by (apply (bool_decide_unpack _); by vm_compute).
  assert (Hdur : rerank.get (rerank.duration_minutes sample.java) = Some 45) by reflexivity.
  split; [exact Hin|]. split; [exact Hdur|].
  exact (proj1 (proj2 (proj2 (proj2
    (apply_duration_filter_spec sample.catalog 60 sample.java)))) Hin Hdur).
Defined.

(** ** [normalize_input] and the inputs that [recommend] refuses *)

Section input_facts.
Context {Score Vec : Type} `{EqDecision Score}.
Variable fetch_jd_from_url : string -> Py.result string.
Variable embed_text : string -> Py.result Vec.
Variable normalize_L2 : Vec -> Vec.

Lemma truthy_Some (s : string) : s <> EmptyString -> Py.truthy (Some s) = true.
Proof. by destruct s. Qed.


(** C1, as the code has it. [recommend] without a query and without a
    URL raises [ValueError] (the InputError of the specification), and
    so does [recommend] with the empty string for a query: an empty
    query counts as no query, whatever the index holds. *)
Theorem recommend_refuses_missing_input
    (service : indexer.CatalogIndex (Score := Score) (Vec := Vec)) (top_k : Z) :
  recommend.recommend fetch_jd_from_url embed_text normalize_L2
    service None None top_k = Py.Raise Py.ValueError /\
  recommend.recommend fetch_jd_from_url embed_text normalize_L2
    service (Some EmptyString) None top_k = Py.Raise Py.ValueError.
Proof. split; reflexivity. Qed.

End input_facts.



(** Over a catalog of fourteen items the empty query is an error and
    not a ranked result. *)
Lemma recommend_empty_query_raises :
  indexer.meta sample.service = Some sample.catalog /\
  length sample.catalog = 14%nat /\
  sample.recommend (Some EmptyString) None 10 = Py.Raise Py.ValueError /\
  ~ (exists out, sample.recommend (Some EmptyString) None 10 = Py.Ok out).
Proof.
  repeat split. intros [out Hout]. discriminate Hout.
Qed.

(** ** [balance_by_domains] *)

Section balance_facts.
Context {Score : Type} `{EqDecision Score}.
Implicit Types (c : rerank.candidate Score) (candidates : list (rerank.candidate Score)).

(** The loop of [balance_by_domains] fills the four buckets. *)
Lemma categorize_loop candidates (tech behav cog other : list (rerank.candidate Score)) :
  fold_left rerank.categorize_step candidates (tech, behav, cog, other)
  = (tech ++ spec.bucket "technical" candidates,
     behav ++ spec.bucket "behavioral" candidates,
     cog ++ spec.bucket "cognitive" candidates,
     other ++ spec.others candidates).
Proof.
  revert tech behav cog other.
  induction candidates as [|c l IH]; intros tech behav cog other.
  - simpl. by rewrite !app_nil_r.
  - change (fold_left rerank.categorize_step (c :: l) (tech, behav, cog, other))
      with (fold_left rerank.categorize_step l
              (rerank.categorize_step (tech, behav, cog, other) c)).
    unfold rerank.categorize_step at 2.
    unfold spec.bucket, spec.others. rewrite !filter_cons.
    fold (spec.domain_of c).
    destruct (String.eqb_spec (spec.domain_of c) "technical") as [E1|N1];
      [|destruct (String.eqb_spec (spec.domain_of c) "behavioral") as [E2|N2];
        [|destruct (String.eqb_spec (spec.domain_of c) "cognitive") as [E3|N3]]];
      rewrite IH; repeat case_decide;
      try congruence;
      try (match goal with
           | H : _ ∉ _ |- _ => rewrite !not_elem_of_cons in H; tauto
           end);
      rewrite <- ?app_assoc;
      first [ reflexivity
            | exfalso;
              match goal with
              | H : _ ∈ _ |- _ => rewrite !elem_of_cons, elem_of_nil in H; tauto
              end ].
Qed.

Lemma slice_to_of_nat {A : Type} (l : list A) (n : nat) :
  Py.slice_to l (Z.of_nat n) = take n l.
Proof. rewrite slice_to_nonneg by lia. by rewrite Nat2Z.id. Qed.

Lemma py_any3 (t b c : bool) : Py.any [t; b; c] = t || b || c.
Proof. by destruct t, b, c. Qed.

Lemma py_sum3 (t b c : bool) :
  Py.sum [t; b; c] = Z.of_nat (Nat.b2n t + Nat.b2n b + Nat.b2n c).
Proof. by destruct t, b, c. Qed.

Lemma slots_per_domain_nat (k n : nat) :
  Z.max 1 (Z.of_nat k `div` Z.of_nat n) = Z.of_nat (Nat.max 1 (k / n)).
Proof. rewrite Nat2Z.inj_max, Nat2Z.inj_div. reflexivity. Qed.

(** The guarded [result.extend(all_remaining[:remaining])]. *)
Lemma fill_remaining {A : Type} (result rest : list A) (k : nat) :
  (if 0 <? Z.of_nat k - Z.of_nat (length result)
   then result ++ Py.slice_to rest (Z.of_nat k - Z.of_nat (length result))
   else result)
  = result ++ take (k - length result) rest.
Proof.
  destruct (Z.ltb_spec 0 (Z.of_nat k - Z.of_nat (length result))) as [Hlt|Hge].
  - rewrite slice_to_nonneg by lia. do 2 f_equal. lia.
  - replace (k - length result)%nat with 0%nat by lia.
    by rewrite take_0, app_nil_r.
Qed.

(** The code computes what section 4.4 describes. *)
Lemma balance_by_domains_refines candidates (d : gmap string bool) (k : nat) :
  rerank.balance_by_domains candidates d (Z.of_nat k)
  = spec.balance_by_domains candidates
      (default false (d !! "wants_technical"))
      (default false (d !! "wants_behavioral"))
      (default false (d !! "wants_cognitive")) k.
Proof.
  unfold rerank.balance_by_domains, spec.balance_by_domains.
  set (t := default false (d !! "wants_technical")).
  set (b := default false (d !! "wants_behavioral")).
  set (c := default false (d !! "wants_cognitive")).
  rewrite py_any3, slice_to_of_nat.
  destruct (t || b || c) eqn:Hany; [|reflexivity].
  cbn [negb].
  rewrite categorize_loop. cbn [app].
  rewrite py_sum3.
  assert (Hn : (0 < Nat.b2n t + Nat.b2n b + Nat.b2n c)%nat)
    by (destruct t, b, c; simpl in *; (lia || discriminate)).
  destruct (Z.eqb_spec (Z.of_nat (Nat.b2n t + Nat.b2n b + Nat.b2n c)) 0) as [E|_];
    [lia|].
  rewrite slots_per_domain_nat, !slice_to_of_nat.
  set (s := Nat.max 1 (k / (Nat.b2n t + Nat.b2n b + Nat.b2n c))).
  rewrite fill_remaining.
  destruct t, b, c; cbn [app]; rewrite ?app_nil_r, <- ?app_assoc; reflexivity.
Qed.

Lemma elem_of_take_in {A : Type} (x : A) (n : nat) (l : list A) :
  x ∈ take n l -> x ∈ l.
Proof. intros Hin. apply (elem_of_sublist _ _ _ Hin), sublist_take. Qed.

(** What a desired domain contributes: candidates of that domain. *)
Lemma elem_of_chosen (flag : bool) (s : nat) (dom : string) candidates c :
  c ∈ (if flag then take s (spec.bucket dom candidates) else []) ->
  c ∈ candidates /\ spec.domain_of c = dom.
Proof.
  destruct flag; [|by intros ?%elem_of_nil].
  intros Hb%elem_of_take_in.
  by apply list_elem_of_filter in Hb as [? ?].
Qed.

Lemma NoDup_chosen (flag : bool) (s : nat) (dom : string) candidates :
  NoDup candidates ->
  NoDup (if flag then take s (spec.bucket dom candidates) else []).
Proof.
  intros Hnd. destruct flag; [|constructor].
  apply (sublist_NoDup _ candidates); [done|].
  etrans; [apply sublist_take | apply sublist_filter].
Qed.

Lemma balance_length candidates (t b c : bool) (k : nat) :
  (length (spec.balance_by_domains candidates t b c k) <= k)%nat.
Proof.
  unfold spec.balance_by_domains.
  destruct (negb (t || b || c)); rewrite length_take; lia.
Qed.

Lemma balance_subset candidates (t b c : bool) (k : nat) x :
  x ∈ spec.balance_by_domains candidates t b c k -> x ∈ candidates.
Proof.
  unfold spec.balance_by_domains.
  destruct (negb (t || b || c)).
  - apply elem_of_take_in.
  - intros Hx%elem_of_take_in.
    rewrite !elem_of_app in Hx.
    destruct Hx as [[Hx|[Hx|Hx]]|Hx];
      try (by apply elem_of_chosen in Hx as [? _]).
    apply elem_of_take_in in Hx.
    by apply list_elem_of_filter in Hx as [_ ?].
Qed.

Lemma balance_NoDup candidates (t b c : bool) (k : nat) :
  NoDup candidates -> NoDup (spec.balance_by_domains candidates t b c k).
Proof.
  intros Hnd. unfold spec.balance_by_domains.
  destruct (negb (t || b || c)).
  { apply (sublist_NoDup _ candidates); [done | apply sublist_take]. }
  eapply sublist_NoDup; [|apply sublist_take].
  apply NoDup_app. split; [|split].
  - apply NoDup_app. split; [by apply NoDup_chosen|]. split.
    + intros x [_ Hx]%elem_of_chosen [[_ Hy]%elem_of_chosen|[_ Hy]%elem_of_chosen]%elem_of_app;
        rewrite Hx in Hy; discriminate.
    + apply NoDup_app. split; [by apply NoDup_chosen|]. split; [|by apply NoDup_chosen].
      intros x [_ Hx]%elem_of_chosen [_ Hy]%elem_of_chosen.
      rewrite Hx in Hy; discriminate.
  - intros x Hx Hfill%elem_of_take_in.
    by apply list_elem_of_filter in Hfill as [Hf _].
  - apply (sublist_NoDup _ candidates); [done|].
    etrans; [apply sublist_take | apply sublist_filter].
Qed.

(** C2. For a count [k] of slots, [balance_by_domains] computes what
    section 4.4 describes: without a desired domain the first [k]
    candidates; otherwise up to [max(1, k // n)] candidates from the
    bucket of each desired domain, technical, behavioral, cognitive
    in this order, then the candidates not yet selected in rank order
    until [k] are reached, and at most [k] in all. With technical and
    behavioral desired, [k = 10] and five candidates or more in each
    of the two buckets, the result is the first five of the technical
    bucket followed by the first five of the behavioral bucket. *)
Theorem balance_by_domains_spec candidates (d : gmap string bool) (k : nat) :
  rerank.balance_by_domains candidates d (Z.of_nat k)
  = spec.balance_by_domains candidates
      (default false (d !! "wants_technical"))
      (default false (d !! "wants_behavioral"))
      (default false (d !! "wants_cognitive")) k /\
  (default false (d !! "wants_technical") = false ->
   default false (d !! "wants_behavioral") = false ->
   default false (d !! "wants_cognitive") = false ->
   rerank.balance_by_domains candidates d (Z.of_nat k) = take k candidates) /\
  (default false (d !! "wants_technical") = true ->
   default false (d !! "wants_behavioral") = true ->
   default false (d !! "wants_cognitive") = false ->
   (5 <= length (spec.bucket "technical" candidates))%nat ->
   (5 <= length (spec.bucket "behavioral" candidates))%nat ->
   rerank.balance_by_domains candidates d 10
   = take 5 (spec.bucket "technical" candidates)
     ++ take 5 (spec.bucket "behavioral" candidates)).
Proof.
  split; [apply balance_by_domains_refines|]. split.
  - intros Ht Hb Hc. rewrite balance_by_domains_refines, Ht, Hb, Hc.
    reflexivity.
  - intros Ht Hb Hc Htech Hbehav.
    change (rerank.balance_by_domains candidates d 10)
      with (rerank.balance_by_domains candidates d (Z.of_nat 10)).
    rewrite (balance_by_domains_refines candidates d 10), Ht, Hb, Hc.
    unfold spec.balance_by_domains. cbn [orb negb Nat.b2n].
    change (Nat.max 1 (10 / (1 + 1 + 0))) with 5%nat.
    rewrite app_nil_r.
    assert (Hlen : length (take 5 (spec.bucket "technical" candidates)
                    ++ take 5 (spec.bucket "behavioral" candidates)) = 10%nat)
      by (rewrite length_app, !length_take; lia).
    rewrite Hlen. cbn [Nat.sub take]. rewrite app_nil_r.
    apply take_ge. lia.
Qed.

End balance_facts.

Lemma balance_by_domains_spec_witness :
  rerank.balance_by_domains sample.catalog sample.tech_and_behav 10
  = [ sample.java; sample.sql; sample.python; sample.react; sample.verbal;
      sample.opq; sample.mq; sample.lead; sample.sjt; sample.team ].
Proof.
  refine (eq_trans (proj2 (proj2
    (balance_by_domains_spec sample.catalog sample.tech_and_behav 10)) _ _ _ _ _) _);
    [reflexivity | reflexivity | reflexivity | vm_compute; lia | vm_compute; lia
    | by vm_compute].
Defined.

(** A negative bound is no count: the slices then drop items from the
    end of the list. *)
Example balance_by_domains_negative_bound :
  rerank.balance_by_domains sample.catalog ∅ (-1) = take 13 sample.catalog.
Proof. reflexivity. Qed.

(** ** [rerank] and [recommend] *)

Section pipeline_facts.
Context {Score Vec : Type} `{EqDecision Score}.
Implicit Types (c : rerank.candidate Score) (candidates : list (rerank.candidate Score)).
Variable fetch_jd_from_url : string -> Py.result string.
Variable embed_text : string -> Py.result Vec.
Variable normalize_L2 : Vec -> Vec.

Lemma apply_duration_filter_sublist candidates (bound : option Z) :
  rerank.apply_duration_filter candidates bound `sublist_of` candidates.
Proof.
  destruct bound as [m|]; [|done].
  rewrite apply_duration_filter_filter. apply sublist_filter.
Qed.

(** What [rerank] returns once the constraints are inferred. *)
Lemma rerank_unfold (query : string) candidates (k : nat) :
  rerank.rerank query candidates (Z.of_nat k)
  = bound ← rerank.infer_max_duration query;
    mret (spec.balance_by_domains
            (rerank.apply_duration_filter candidates bound)
            (default false (rerank.infer_desired_domains query !! "wants_technical"))
            (default false (rerank.infer_desired_domains query !! "wants_behavioral"))
            (default false (rerank.infer_desired_domains query !! "wants_cognitive"))
            k).
Proof.
  unfold rerank.rerank.
  destruct (rerank.infer_max_duration query) as [bound|e]; [|reflexivity].
  simpl. f_equal.
  rewrite balance_by_domains_refines, slice_to_of_nat.
  apply take_ge, balance_length.
Qed.

Lemma rerank_ok (query : string) candidates (k : nat) out :
  rerank.rerank query candidates (Z.of_nat k) = Py.Ok out ->
  (length out <= k)%nat /\
  (forall c, c ∈ out -> c ∈ candidates) /\
  (NoDup candidates -> NoDup out).
Proof.
  rewrite rerank_unfold.
  destruct (rerank.infer_max_duration query) as [bound|e]; [|discriminate].
  simpl. intros [= <-]. split; [apply balance_length|]. split.
  - intros c Hc%balance_subset.
    apply (elem_of_sublist _ _ _ Hc), apply_duration_filter_sublist.
  - intros Hnd. apply balance_NoDup.
    apply (sublist_NoDup _ candidates); [done|].
    apply apply_duration_filter_sublist.
Qed.

(** C8. For a count [k], a list that [rerank] returns has at most [k]
    items, every item is one of the candidates, and it has no item
    twice when the candidates are pairwise distinct. [rerank] returns
    such a list unless [infer_max_duration] raises on the query. *)
Theorem rerank_bounded (query : string) candidates (k : nat) :
  match rerank.rerank query candidates (Z.of_nat k) with
  | Py.Ok out =>
      (length out <= k)%nat /\
      (forall c, c ∈ out -> c ∈ candidates) /\
      (NoDup candidates -> NoDup out)
  | Py.Raise e => rerank.infer_max_duration query = Py.Raise e
  end.
Proof.
  destruct (rerank.rerank query candidates (Z.of_nat k)) as [out|e] eqn:E.
  - by apply (rerank_ok query).
  - rewrite rerank_unfold in E.
    destruct (rerank.infer_max_duration query) as [bound|e']; [discriminate E|].
    simpl in E. congruence.
Qed.



End pipeline_facts.

Lemma rerank_bounded_witness :
  exists out,
    rerank.rerank "Java developer who can collaborate, 40 mins" sample.catalog 10
      = Py.Ok out /\ NoDup out.
Proof.
  pose proof (rerank_bounded "Java developer who can collaborate, 40 mins"
                sample.catalog 10) as H.
  change (Z.of_nat 10) with 10 in H.
  destruct (rerank.rerank "Java developer who can collaborate, 40 mins"
              sample.catalog 10) as [out|e] eqn:E; [|by vm_compute in E].
  exists out. split; [reflexivity|].
  apply H. apply (bool_decide_unpack _). by vm_compute.
Defined.

(** A duration beyond the floats: [float] gives an infinity, [int]
    raises [OverflowError], and so does [rerank]. *)
Example rerank_overflow :
  rerank.infer_max_duration sample.huge_hours = Py.Raise Py.OverflowError /\
  rerank.rerank sample.huge_hours sample.catalog 10 = Py.Raise Py.OverflowError.
Proof. split; by vm_compute. Qed.

(** ** The matcher finds a match exactly when the pattern has one *)

Section regex_facts.
Context {A : Type}.
Implicit Types (k : string -> option A) (r : re.regex).

Lemma star_sound (P : string -> Prop)
    (step : string -> (string -> option A) -> option A) :
  (forall s k a, step s k = Some a ->
     exists s1 s2, s = s1 +:+ s2 /\ P s1 /\ k s2 = Some a) ->
  forall n s k a, re.star step n s k = Some a ->
    exists s1 s2, s = s1 +:+ s2 /\ spec.star_of P s1 /\ k s2 = Some a.
Proof.
  intros Hstep n. induction n as [|n IH]; intros s k a; simpl.
  - intros Hk. exists EmptyString, s. split; [done|]. split; [constructor | done].
  - destruct (step s _) as [a0|] eqn:E.
    + intros [= ->]. apply Hstep in E as (s1 & s2 & -> & HP & Hk).
      destruct (_ <? _)%nat; [|discriminate].
      apply IH in Hk as (t1 & t2 & -> & Hstar & Hk).
      exists (s1 +:+ t1), t2. rewrite app_string_assoc.
      split; [done|]. split; [by constructor | done].
    + intros Hk. exists EmptyString, s. split; [done|]. split; [constructor | done].
Qed.

Lemma bt_sound r : forall s k a, re.bt r s k = Some a ->
  exists s1 s2, s = s1 +:+ s2 /\ spec.matches r s1 /\ k s2 = Some a.
Proof.
  induction r as [|p|r1 IH1 r2 IH2|r1 IH1|r1 IH1|r1 IH1]; intros s k a; simpl.
  - intros Hk. by exists EmptyString, s.
  - destruct s as [|c s']; [discriminate|].
    destruct (p c) eqn:Hp; [|discriminate].
    intros Hk. exists (String c EmptyString), s'. split; [done|]. split; [|done].
    by exists c.
  - intros (s1 & s2 & -> & H1 & H)%IH1.
    apply IH2 in H as (t1 & t2 & -> & H2 & Hk).
    exists (s1 +:+ t1), t2. rewrite app_string_assoc. split; [done|].
    split; [|done]. by exists s1, t1.
  - destruct (re.bt r1 s k) as [a0|] eqn:E.
    + intros [= ->]. apply IH1 in E as (s1 & s2 & -> & H1 & Hk).
      exists s1, s2. split; [done|]. split; [by right | done].
    + intros Hk. exists EmptyString, s. split; [done|]. split; [by left | done].
  - apply (star_sound (spec.matches r1)). intros s0 k0 a0. apply IH1.
  - intros (s1 & s2 & -> & H1 & H)%IH1.
    apply (star_sound (spec.matches r1)) in H as (t1 & t2 & -> & Hstar & Hk);
      [|intros s0 k0 a0; apply IH1].
    exists (s1 +:+ t1), t2. rewrite app_string_assoc. split; [done|].
    split; [|done]. by exists s1, t1.
Qed.




End regex_facts.

(** ** [re.search] and [infer_max_duration] *)

Section duration_facts.
Implicit Types (g tail : re.regex) (text grp : string).

Lemma substring_prefix (s1 s2 : string) :
  String.substring 0 (String.length (s1 +:+ s2) - String.length s2) (s1 +:+ s2)
  = s1.
Proof.
  rewrite length_app_string.
  replace (String.length s1 + String.length s2 - String.length s2)%nat
    with (String.length s1) by lia.
  induction s1 as [|c s1 IH].
  - rewrite app_empty_l. by destruct s2.
  - rewrite app_cons. simpl. by rewrite IH.
Qed.

Lemma match_at_sound g tail text grp :
  re.match_at g tail text = Some grp ->
  exists rest post,
    text = grp +:+ rest +:+ post /\ spec.matches g grp /\ spec.matches tail rest.
Proof.
  unfold re.match_at.
  intros (s1 & s2 & -> & Hg & H)%bt_sound.
  apply bt_sound in H as (t1 & t2 & -> & Htail & [= <-]).
  rewrite substring_prefix. by exists t1, t2.
Qed.


(** What [re.search] returns is group 1 of a match in the text. *)
Lemma search_sound g tail text grp :
  re.search g tail text = Some grp ->
  spec.matches g grp /\
  exists pre rest post,
    text = pre +:+ grp +:+ rest +:+ post /\ spec.matches tail rest.
Proof.
  induction text as [|c text IH]; simpl.
  - destruct (re.match_at g tail EmptyString) as [grp'|] eqn:E; [|discriminate].
    intros [= ->]. apply match_at_sound in E as (rest & post & E & Hg & Ht).
    split; [done|]. by exists EmptyString, rest, post.
  - destruct (re.match_at g tail (String c text)) as [grp'|] eqn:E.
    + intros [= ->]. apply match_at_sound in E as (rest & post & E & Hg & Ht).
      split; [done|]. by exists EmptyString, rest, post.
    + intros (Hg & pre & rest & post & -> & Ht)%IH.
      split; [done|]. by exists (String c pre), rest, post.
Qed.





(** The hours pattern wins over an earlier minutes match, and the
    product is a binary64 product: 2.05 * 60 is just below 123. *)
Example infer_max_duration_hours_first :
  rerank.infer_max_duration "30 min or 2hour" = Py.Ok (Some 120) /\
  rerank.infer_max_duration "2.05 hours" = Py.Ok (Some 122).
Proof. split; by vm_compute. Qed.

End duration_facts.

(** ** [CatalogIndex.search]

    The order of the scores and the choice among equal scores are made
    inside FAISS; the code of the repository passes [min(top_k, ntotal)]
    on and maps the labels it gets back to rows of the metadata. *)

Section search_facts.
Context {Score Vec : Type}.
Variable normalize_L2 : Vec -> Vec.

Lemma rows_of_length (n : nat) (idxs : list Z) (rows : list nat) :
  indexer.rows_of n idxs = Py.Ok rows ->
  (length rows <= length idxs)%nat /\ Forall (fun row => (row < n)%nat) rows.
Proof.
  revert rows. induction idxs as [|i idxs IH]; intros rows; simpl.
  - intros [= <-]. split; [done | constructor].
  - destruct (Z.ltb_spec i (Z.of_nat n)) as [Hlt|Hge].
    + destruct (Z.ltb_spec (if i <? 0 then Z.of_nat n + i else i) 0) as [Hneg|Hpos];
        [discriminate|].
      destruct (indexer.rows_of n idxs) as [rows'|e]; [|discriminate].
      simpl. intros [= <-]. destruct (IH rows' eq_refl) as [Hlen Hall].
      split; [simpl; lia|]. constructor; [|done].
      destruct (Z.ltb_spec i 0); lia.
    + intros Hrows. destruct (IH rows Hrows) as [Hlen Hall]. split; [lia | done].
Qed.

(** On a loaded index, [search] asks FAISS for [min(top_k, ntotal)]
    neighbours and returns its scores with the rows of its labels. *)
Lemma search_loaded (self : indexer.CatalogIndex (Score := Score) (Vec := Vec))
    (idx : indexer.flat_index) (m : list (rerank.candidate Score))
    (query_vec : Vec) (top_k : Z) (scores : list Score) (idxs : list Z) :
  indexer.index self = Some idx -> indexer.meta self = Some m ->
  indexer.flat_search idx (normalize_L2 query_vec) (Z.min top_k (indexer.ntotal idx))
    = Py.Ok (scores, idxs) ->
  indexer.search normalize_L2 self query_vec top_k
  = (rows ← indexer.rows_of (length m) idxs; mret (self, (scores, rows))).
Proof.
  intros Hidx Hmeta Hflat. unfold indexer.search.
  rewrite Hidx. simpl. rewrite Hidx, Hmeta, Hflat. reflexivity.
Qed.

End search_facts.

(** * Further properties of the code *)

(** ** Keywords and test types *)

Section keyword_facts.

Lemma prefix_split (kw s : string) :
  String.prefix kw s = true -> exists post, s = kw +:+ post.
Proof.
  revert s. induction kw as [|c kw IH]; intros s.
  - intros _. by exists s.
  - destruct s as [|c' s]; simpl; [discriminate|].
    destruct (ascii_dec c c') as [<-|]; [|discriminate].
    intros [post ->]%IH. by exists post.
Qed.

Lemma contains_split (kw s : string) :
  Py.contains kw s = true -> exists pre post, s = pre +:+ kw +:+ post.
Proof.
  induction s as [|c s IH]; rewrite contains_unfold.
  - rewrite orb_false_r. intros [post E]%prefix_split. by exists EmptyString, post.
  - intros [[post E]%prefix_split|[pre [post ->]]%IH]%orb_true_iff.
    + by exists EmptyString, post.
    + by exists (String c pre), post.
Qed.



Lemma contains_trans (a b s : string) :
  Py.contains a b = true -> Py.contains b s = true -> Py.contains a s = true.
Proof.
  intros (p1 & q1 & ->)%contains_split (p2 & q2 & ->)%contains_split.
  rewrite !app_string_assoc, <- (app_string_assoc p2 p1).
  apply contains_app.
Qed.


(** Keywords that each hold a keyword of a second list: what the first
    list finds, the second finds. *)
Lemma any_kw_covered (kws1 kws2 : list string) (s : string) :
  forallb (fun kw => existsb (fun kw' => Py.contains kw' kw) kws2) kws1 = true ->
  rerank.any_kw kws1 s = true -> rerank.any_kw kws2 s = true.
Proof.
  unfold rerank.any_kw. intros Hcov (kw & Hin & Hc)%existsb_exists.
  rewrite forallb_forall in Hcov.
  apply Hcov in Hin as (kw' & Hin' & Hsub)%existsb_exists.
  apply existsb_exists. exists kw'. split; [done|].
  by apply (contains_trans _ kw).
Qed.

(** A text that [extract_keywords] of [jd_utils] marks as cognitive is
    marked as cognitive by [infer_desired_domains] as well: each
    cognitive keyword of the first holds one of the second. *)
Theorem extract_keywords_cognitive_implies (text : string) :
  jd_utils.extract_keywords text !! "wants_cognitive" = Some true ->
  rerank.infer_desired_domains text !! "wants_cognitive" = Some true.
Proof.
  destruct (flags_eq text) as (_ & _ & ->).
  unfold jd_utils.extract_keywords.
  rewrite !lookup_insert_ne, lookup_insert_eq by done.
  intros H. f_equal.
  apply (any_kw_covered jd_utils.cognitive_keywords); [by vm_compute|].
  congruence.
Qed.

End keyword_facts.

Lemma extract_keywords_cognitive_implies_witness :
  rerank.infer_desired_domains "Problem Solving test" !! "wants_cognitive"
  = Some true.
Proof.
  apply (extract_keywords_cognitive_implies "Problem Solving test").
  by vm_compute.
Defined.

Section test_type_facts.





Lemma lower_empty (t : string) : Py.lower t = EmptyString -> t = EmptyString.
Proof. by destruct t. Qed.

Lemma upper_empty (t : string) : Py.upper t = EmptyString -> t = EmptyString.
Proof. by destruct t. Qed.



Lemma jd_mapping_lookup (code : string) :
  default "other" (jd_utils.mapping !! code) = spec.domain_of_code code.
Proof. apply mapping_lookup. Qed.

(** The [categorize_test_type] of [jd_utils] looks the code up as it
    is written. It is the one of [rerank] on the upper-cased, stripped
    code; on every code it gives the domain that [rerank] gives or the
    domain other, never a third one, and the two agree on [None]. *)
Theorem categorize_test_type_siblings (t : string) :
  rerank.categorize_test_type (Some t)
    = jd_utils.categorize_test_type (Some (Py.strip (Py.upper t))) /\
  (jd_utils.categorize_test_type (Some t) = rerank.categorize_test_type (Some t) \/
   jd_utils.categorize_test_type (Some t) = "other") /\
  jd_utils.categorize_test_type None = rerank.categorize_test_type None.
Proof.
  split; [|split; [|done]].
  - rewrite categorize_normalizes. unfold jd_utils.categorize_test_type.
    by rewrite jd_mapping_lookup.
  - unfold jd_utils.categorize_test_type. rewrite jd_mapping_lookup.
    destruct (decide (t ∈ ["K"; "V"; "P"; "L"; "C"; "N"; "R"])) as [Hin|Hout].
    + left. repeat (apply elem_of_cons in Hin as [->|Hin]; [by vm_compute|]).
      by apply elem_of_nil in Hin.
    + right. by apply unrecognized_code.
Qed.

End test_type_facts.

(** ** What [infer_max_duration] can answer *)

Section duration_outcomes.

Lemma has_digit_app (a b : string) :
  PyFloat.has_digit (a +:+ b) = PyFloat.has_digit a || PyFloat.has_digit b.
Proof.
  unfold PyFloat.has_digit. induction a as [|c a IH]; [done|].
  rewrite app_cons. simpl. by rewrite IH, orb_assoc.
Qed.

Lemma star_digits (s : string) :
  spec.star_of (spec.matches re.digit) s -> shape.all_digits s = true.
Proof.
  induction 1 as [|s1 s2 (c & -> & Hc) _ IH]; [done|].
  rewrite app_cons, app_empty_l. simpl. by rewrite Hc, IH.
Qed.

(** [\d+] matches non-empty texts of digits. *)
Lemma plus_digits (s : string) :
  spec.matches (re.Plus re.digit) s ->
  exists c s', s = String c s' /\ Py.is_digit c = true /\ shape.all_digits s' = true.
Proof.
  intros (s1 & s2 & -> & (c & -> & Hc) & Hstar%star_digits).
  exists c, s2. by rewrite app_cons, app_empty_l.
Qed.

Lemma number_has_digit (grp : string) :
  spec.matches rerank.number grp -> PyFloat.has_digit grp = true.
Proof.
  intros (s1 & s2 & -> & (c & s' & -> & Hc & _)%plus_digits & _).
  rewrite has_digit_app. unfold PyFloat.has_digit at 1. simpl. by rewrite Hc.
Qed.




Lemma parse_digits (ds rest : string) (acc : Z) (seen_dot : bool) (frac : Z) :
  shape.all_digits ds = true ->
  exists acc' frac',
    PyFloat.parse_decimal (ds +:+ rest) acc seen_dot frac
    = PyFloat.parse_decimal rest acc' seen_dot frac'.
Proof.
  revert acc frac. induction ds as [|c ds IH]; intros acc frac.
  - intros _. by exists acc, frac.
  - rewrite app_cons. simpl. intros [Hc Hds]%andb_true_iff. rewrite Hc.
    apply IH, Hds.
Qed.

(** Group 1 of the two patterns is a numeral that [float] reads. *)
Lemma number_parses (grp : string) :
  spec.matches rerank.number grp ->
  exists n f, PyFloat.parse_decimal grp 0 false 0 = Some (n, f).
Proof.
  intros (s1 & s2 & -> & (c & s' & -> & Hc & Hs')%plus_digits & Hopt).
  assert (Hall : shape.all_digits (String c s') = true) by (simpl; by rewrite Hc).
  destruct (parse_digits (String c s') s2 0 false 0 Hall) as (acc & fr & ->).
  destruct Hopt as [->|(d & s3 & -> & (x & -> & Hx) & (c2 & s4 & -> & Hc2 & Hs4)%plus_digits)].
  - by exists acc, fr.
  - apply Ascii.eqb_eq in Hx as <-.
    rewrite app_cons, app_empty_l.
    change (PyFloat.parse_decimal (String "." (String c2 s4)) acc false fr)
      with (PyFloat.parse_decimal (String c2 s4) acc true fr).
    assert (Hall2 : shape.all_digits (String c2 s4) = true) by (simpl; by rewrite Hc2).
    destruct (parse_digits (String c2 s4) EmptyString acc true fr Hall2)
      as (acc' & fr' & E).
    rewrite app_empty_r in E. rewrite E. by exists acc', fr'.
Qed.

Lemma iter_pos_invariant {T : Type} (P : T -> Prop) (f : T -> T) :
  (forall x, P x -> P (f x)) -> forall p x, P x -> P (SpecFloat.iter_pos f p x).
Proof.
  intros Hf p. induction p as [p IH|p IH|]; intros x Hx; simpl; auto.
Qed.

Lemma shr_1_nonneg (mrs : shr_record) : 0 <= shr_m mrs -> 0 <= shr_m (shr_1 mrs).
Proof.
  destruct mrs as [m r s]. simpl. destruct m as [|p|p]; [done| |lia].
  intros _. by destruct p.
Qed.

Lemma shr_fexp_nonneg (m e : Z) (l : location) :
  0 <= m -> 0 <= shr_m (fst (shr_fexp PyFloat.prec PyFloat.emax m e l)).
Proof.
  intros Hm. unfold shr_fexp, shr.
  assert (H0 : 0 <= shr_m (shr_record_of_loc m l)) by (by destruct l as [|[]]).
  destruct (_ - e) as [|p|p]; simpl; try done.
  by apply (iter_pos_invariant (fun mrs => 0 <= shr_m mrs)), H0; apply shr_1_nonneg.
Qed.

Lemma round_nearest_even_nonneg (m : Z) (l : location) :
  0 <= m -> 0 <= round_nearest_even m l.
Proof.
  intros Hm. destruct l as [|[]]; simpl; try done; [|lia].
  destruct (Z.even m); lia.
Qed.

(** Rounding a non-negative mantissa gives no NaN and no negative
    float. *)
Lemma binary_round_aux_nonneg (m e : Z) (l : location) :
  0 <= m ->
  shape.nonneg (binary_round_aux PyFloat.prec PyFloat.emax false m e l) = true.
Proof.
  intros Hm. unfold binary_round_aux.
  pose proof (shr_fexp_nonneg m e l Hm) as H1.
  destruct (shr_fexp PyFloat.prec PyFloat.emax m e l) as [mrs' e'].
  simpl in H1.
  pose proof (shr_fexp_nonneg _ e' loc_Exact
                (round_nearest_even_nonneg _ (loc_of_shr_record mrs') H1)) as H2.
  destruct (shr_fexp PyFloat.prec PyFloat.emax _ e' loc_Exact) as [mrs'' e''].
  simpl in H2.
  destruct (shr_m mrs'') as [|p|p]; [done| |lia].
  by destruct (e'' <=? _).
Qed.

Lemma of_str_nonneg (grp : string) :
  spec.matches rerank.number grp ->
  exists x, PyFloat.of_str grp = Py.Ok x /\ shape.nonneg x = true.
Proof.
  intros Hg. unfold PyFloat.of_str.
  rewrite (number_has_digit grp Hg). simpl.
  destruct (number_parses grp Hg) as (n & f & ->).
  destruct n as [|n|n]; try (by eexists).
  eexists. split; [done|].
  unfold SFdiv.
  destruct (SFdiv_core_binary _ _ _ _ _ _) as [[mz ez] lz] eqn:E.
  apply binary_round_aux_nonneg.
  unfold SFdiv_core_binary in E.
  destruct (Z.div_eucl _ _) as [q r] eqn:Hq. injection E as <- _ _.
  pose proof (Z.div_pos
    (match 0 - 0 - Z.min (fexp PyFloat.prec PyFloat.emax
        (Zdigits2 (Z.pos n) + 0 - (Zdigits2 (Z.pos (Z.to_pos (10 ^ f))) + 0))) (0 - 0)
     with
     | 0 => Z.pos n
     | Z.pos _ => Z.shiftl (Z.pos n) (0 - 0 - Z.min (fexp PyFloat.prec PyFloat.emax
        (Zdigits2 (Z.pos n) + 0 - (Zdigits2 (Z.pos (Z.to_pos (10 ^ f))) + 0))) (0 - 0))
     | Z.neg _ => 0
     end) (Z.pos (Z.to_pos (10 ^ f)))) as Hdiv.
  unfold Z.div in Hdiv. rewrite Hq in Hdiv. apply Hdiv; [|lia].
  destruct (0 - 0 - _) as [|s|s] eqn:Hs; [lia| |lia].
  apply Z.shiftl_nonneg. lia.
Qed.

Lemma to_int_mul_nonneg (x : spec_float) (multiplier : Z) :
  shape.nonneg x = true -> shape.positive (PyFloat.of_int multiplier) = true ->
  match PyFloat.to_int (PyFloat.mul_int x multiplier) with
  | Py.Ok minutes => 0 <= minutes
  | Py.Raise e => e = Py.OverflowError
  end.
Proof.
  unfold PyFloat.mul_int. intros Hx Hm.
  assert (Hprod : shape.nonneg
            (SFmul PyFloat.prec PyFloat.emax x (PyFloat.of_int multiplier)) = true).
  { destruct x as [[]|[]| |[] mx ex]; try discriminate;
      destruct (PyFloat.of_int multiplier) as [[]|[]| |[] my ey];
      try discriminate; try done.
    simpl. by apply binary_round_aux_nonneg. }
  destruct (SFmul _ _ _ _) as [[]|[]| |[] m e]; try discriminate; simpl; try done.
  destruct (Z.leb_spec 0 e).
  - apply Z.mul_nonneg_nonneg; [lia|]. apply Z.pow_nonneg. lia.
  - apply Z.div_pos; [lia|]. apply Z.pow_pos_nonneg; lia.
Qed.

Lemma first_match_outcomes (ps : list (re.regex * re.regex * Z)) (query : string) :
  Forall (fun p => p.1.1 = rerank.number /\
                   shape.positive (PyFloat.of_int p.2) = true) ps ->
  match rerank.first_match ps query with
  | Py.Ok None => True
  | Py.Ok (Some minutes) => 0 <= minutes
  | Py.Raise e => e = Py.OverflowError
  end.
Proof.
  induction 1 as [|[[g tail] multiplier] ps [Hg Hm] _ IH]; [done|].
  simpl in *. subst g.
  destruct (re.search rerank.number tail query) as [grp|] eqn:Hs; [|exact IH].
  apply search_sound in Hs as [Hnum _].
  destruct (of_str_nonneg grp Hnum) as (x & -> & Hx). simpl.
  pose proof (to_int_mul_nonneg x multiplier Hx Hm) as H.
  by destruct (PyFloat.to_int _).
Qed.

(** [infer_max_duration] returns [None] or a number of minutes that is
    zero or more, and the only exception it raises is [OverflowError],
    for a numeral beyond the floats: never a [ValueError] from [float]
    or [int]. *)
Theorem infer_max_duration_outcomes (query : string) :
  match rerank.infer_max_duration query with
  | Py.Ok None => True
  | Py.Ok (Some minutes) => 0 <= minutes
  | Py.Raise e => e = Py.OverflowError
  end.
Proof.
  apply first_match_outcomes. unfold rerank.patterns.
  repeat constructor.
Qed.

End duration_outcomes.


(** ** More on the duration filter and the balance of domains *)

Section balance_more.
Context {Score : Type} `{EqDecision Score}.
Implicit Types (c : rerank.candidate Score) (candidates : list (rerank.candidate Score)).

Lemma within_min (a b : Z) c :
  spec.within a c /\ spec.within b c <-> spec.within (Z.min a b) c.
Proof.
  unfold spec.within. destruct (rerank.get (rerank.duration_minutes c)); [lia | tauto].
Qed.

(** Two duration filters in a row are the filter of the smaller bound,
    in either order; so a filter applied twice is the filter applied
    once, and a wider bound after a narrower one removes nothing. *)
Theorem apply_duration_filter_twice candidates (a b : Z) :
  rerank.apply_duration_filter
    (rerank.apply_duration_filter candidates (Some a)) (Some b)
  = rerank.apply_duration_filter candidates (Some (Z.min a b)) /\
  rerank.apply_duration_filter
    (rerank.apply_duration_filter candidates (Some a)) (Some b)
  = rerank.apply_duration_filter
      (rerank.apply_duration_filter candidates (Some b)) (Some a).
Proof.
  rewrite !apply_duration_filter_filter, !list_filter_filter.
  split; apply list_filter_iff; intros c; rewrite <- ?within_min; tauto.
Qed.

Lemma balance_picked candidates (t b c : bool) (k : nat) :
  t || b || c = true ->
  spec.balance_by_domains candidates t b c k
  = take k (shape.picked candidates t b c k
            ++ take (k - length (shape.picked candidates t b c k))
                 (filter (fun x => x ∉ shape.picked candidates t b c k) candidates)).
Proof. intros H. unfold spec.balance_by_domains. by rewrite H. Qed.

Lemma picked_subset candidates (t b c : bool) (k : nat) x :
  x ∈ shape.picked candidates t b c k -> x ∈ candidates.
Proof.
  unfold shape.picked. rewrite !elem_of_app.
  intros [H|[H|H]]; by apply elem_of_chosen in H as [? _].
Qed.

Lemma picked_NoDup candidates (t b c : bool) (k : nat) :
  NoDup candidates -> NoDup (shape.picked candidates t b c k).
Proof.
  intros Hnd. unfold shape.picked.
  apply NoDup_app. split; [by apply NoDup_chosen|]. split.
  - intros x [_ Hx]%elem_of_chosen [[_ Hy]%elem_of_chosen|[_ Hy]%elem_of_chosen]%elem_of_app;
      rewrite Hx in Hy; discriminate.
  - apply NoDup_app. split; [by apply NoDup_chosen|]. split; [|by apply NoDup_chosen].
    intros x [_ Hx]%elem_of_chosen [_ Hy]%elem_of_chosen.
    rewrite Hx in Hy; discriminate.
Qed.

(** The picked candidates and the candidates left over make up the
    candidates. *)
Lemma picked_and_rest candidates (t b c : bool) (k : nat) :
  NoDup candidates ->
  shape.picked candidates t b c k
  ++ filter (fun x => x ∉ shape.picked candidates t b c k) candidates
  ≡ₚ candidates.
Proof.
  intros Hnd.
  rewrite <- (filter_app_complement
                (fun x => x ∈ shape.picked candidates t b c k) candidates) at 3.
  apply Permutation_app; [|done].
  apply NoDup_Permutation; [by apply picked_NoDup | by apply NoDup_filter|].
  intros x. rewrite list_elem_of_filter. split; [|tauto].
  intros Hx. split; [done|]. by apply picked_subset in Hx.
Qed.

Lemma balance_length_exact candidates (t b c : bool) (k : nat) :
  NoDup candidates ->
  length (spec.balance_by_domains candidates t b c k)
  = Nat.min k (length candidates).
Proof.
  intros Hnd. destruct (t || b || c) eqn:Hany.
  - rewrite balance_picked by done.
    pose proof (Permutation_length (picked_and_rest candidates t b c k Hnd)) as Hlen.
    rewrite length_app in Hlen.
    rewrite length_take, length_app, length_take. lia.
  - unfold spec.balance_by_domains. rewrite Hany. simpl. apply length_take.
Qed.

(** Over pairwise distinct candidates, [balance_by_domains] fills the
    [k] slots whenever there are [k] candidates: the result has
    [min(k, len(candidates))] items, whatever domains are desired. *)
Theorem balance_by_domains_fills candidates (d : gmap string bool) (k : nat) :
  NoDup candidates ->
  length (rerank.balance_by_domains candidates d (Z.of_nat k))
  = Nat.min k (length candidates).
Proof.
  intros Hnd. rewrite balance_by_domains_refines. by apply balance_length_exact.
Qed.

(** With room for all of them, pairwise distinct candidates are all
    returned: balancing only changes their order. *)
Theorem balance_by_domains_reorders candidates (d : gmap string bool) (k : nat) :
  NoDup candidates -> (length candidates <= k)%nat ->
  rerank.balance_by_domains candidates d (Z.of_nat k) ≡ₚ candidates.
Proof.
  intros Hnd Hk. rewrite balance_by_domains_refines.
  destruct (default false (d !! "wants_technical")
            || default false (d !! "wants_behavioral")
            || default false (d !! "wants_cognitive")) eqn:Hany.
  - rewrite balance_picked by done.
    pose proof (picked_and_rest candidates
                  (default false (d !! "wants_technical"))
                  (default false (d !! "wants_behavioral"))
                  (default false (d !! "wants_cognitive")) k Hnd) as Hperm.
    pose proof (Permutation_length Hperm) as Hlen. rewrite length_app in Hlen.
    rewrite (take_ge (filter _ _)) by lia.
    rewrite take_ge by (rewrite length_app; lia). exact Hperm.
  - unfold spec.balance_by_domains. rewrite Hany. simpl. by rewrite take_ge.
Qed.

(** With one desired domain whose bucket has [k] candidates or more,
    the result is the first [k] of that bucket: better ranked
    candidates of the other domains are left out. *)
Theorem balance_by_domains_single_domain candidates (d : gmap string bool) (k : nat) :
  (default false (d !! "wants_technical") = true ->
   default false (d !! "wants_behavioral") = false ->
   default false (d !! "wants_cognitive") = false ->
   (k <= length (spec.bucket "technical" candidates))%nat ->
   rerank.balance_by_domains candidates d (Z.of_nat k)
   = take k (spec.bucket "technical" candidates)) /\
  (default false (d !! "wants_technical") = false ->
   default false (d !! "wants_behavioral") = true ->
   default false (d !! "wants_cognitive") = false ->
   (k <= length (spec.bucket "behavioral" candidates))%nat ->
   rerank.balance_by_domains candidates d (Z.of_nat k)
   = take k (spec.bucket "behavioral" candidates)) /\
  (default false (d !! "wants_technical") = false ->
   default false (d !! "wants_behavioral") = false ->
   default false (d !! "wants_cognitive") = true ->
   (k <= length (spec.bucket "cognitive" candidates))%nat ->
   rerank.balance_by_domains candidates d (Z.of_nat k)
   = take k (spec.bucket "cognitive" candidates)).
Proof.
  assert (Hone : forall l : list (rerank.candidate Score),
            (k <= length l)%nat ->
            forall rest, take k (take (Nat.max 1 (k / 1)) l
                                  ++ take (k - length (take (Nat.max 1 (k / 1)) l)) rest)
                         = take k l).
  { intros l Hl rest. rewrite Nat.div_1_r.
    rewrite take_app_le by (rewrite length_take; lia).
    rewrite take_take. f_equal. lia. }
  repeat split; intros Ht Hb Hc Hlen;
    rewrite balance_by_domains_refines, Ht, Hb, Hc;
    unfold spec.balance_by_domains; cbn [orb negb Nat.b2n Nat.add app];
    rewrite ?app_nil_r; by apply Hone.
Qed.

End balance_more.

Lemma balance_by_domains_fills_witness :
  length (rerank.balance_by_domains sample.catalog sample.tech_and_behav 10) = 10%nat.
Proof.
  refine (eq_trans (balance_by_domains_fills sample.catalog sample.tech_and_behav 10 _) _);
    [apply (bool_decide_unpack _); by vm_compute | reflexivity].
Defined.

Lemma balance_by_domains_reorders_witness :
  rerank.balance_by_domains sample.catalog sample.tech_and_behav 20
  ≡ₚ sample.catalog.
Proof.
  apply (balance_by_domains_reorders sample.catalog sample.tech_and_behav 20).
  - apply (bool_decide_unpack _). by vm_compute.
  - simpl. lia.
Defined.

Lemma balance_by_domains_single_domain_witness :
  rerank.balance_by_domains sample.catalog {["wants_technical" := true]} 3
  = [ sample.java; sample.sql; sample.python ].
Proof.
  refine (eq_trans (proj1 (balance_by_domains_single_domain sample.catalog
                             {["wants_technical" := true]} 3) _ _ _ _) _);
    [reflexivity | reflexivity | reflexivity | vm_compute; lia | by vm_compute].
Defined.

(** ** More on [rerank] and [recommend] *)

Section rerank_more.
Context {Score Vec : Type} `{EqDecision Score}.
Implicit Types (c : rerank.candidate Score) (candidates : list (rerank.candidate Score)).
Variable fetch_jd_from_url : string -> Py.result string.
Variable embed_text : string -> Py.result Vec.
Variable normalize_L2 : Vec -> Vec.

Lemma rerank_of_bound (query : string) candidates (k : nat) (bound : option Z) :
  rerank.infer_max_duration query = Py.Ok bound ->
  rerank.rerank query candidates (Z.of_nat k)
  = Py.Ok (spec.balance_by_domains
             (rerank.apply_duration_filter candidates bound)
             (default false (rerank.infer_desired_domains query !! "wants_technical"))
             (default false (rerank.infer_desired_domains query !! "wants_behavioral"))
             (default false (rerank.infer_desired_domains query !! "wants_cognitive"))
             k).
Proof. intros Hb. by rewrite rerank_unfold, Hb. Qed.



(** When the query states a duration, [rerank] returns a list, and no
    candidate in it is known to take longer: every one has no duration
    or one within the bound. *)
Theorem rerank_respects_duration (query : string) candidates (k : nat) (minutes : Z) :
  rerank.infer_max_duration query = Py.Ok (Some minutes) ->
  exists out,
    rerank.rerank query candidates (Z.of_nat k) = Py.Ok out /\
    Forall (spec.within minutes) out.
Proof.
  intros Hb. eexists. split; [by apply rerank_of_bound|].
  apply Forall_forall. intros c Hc%balance_subset.
  rewrite apply_duration_filter_filter in Hc.
  by apply list_elem_of_filter in Hc as [? _].
Qed.

(** Over pairwise distinct candidates [rerank] returns as many items
    as it can: [k], or all the candidates that pass the duration filter
    when they are fewer. *)
Theorem rerank_count (query : string) candidates (k : nat) (bound : option Z) :
  rerank.infer_max_duration query = Py.Ok bound ->
  NoDup candidates ->
  exists out,
    rerank.rerank query candidates (Z.of_nat k) = Py.Ok out /\
    length out
    = Nat.min k (length (rerank.apply_duration_filter candidates bound)).
Proof.
  intros Hb Hnd. eexists. split; [by apply rerank_of_bound|].
  apply balance_length_exact.
  apply (sublist_NoDup _ candidates); [done|].
  apply apply_duration_filter_sublist.
Qed.



End rerank_more.


Lemma rerank_respects_duration_witness :
  exists out,
    rerank.rerank "Java developer, 40 mins" sample.catalog 10 = Py.Ok out /\
    Forall (spec.within 40) out.
Proof.
  apply (rerank_respects_duration "Java developer, 40 mins" sample.catalog 10 40).
  by vm_compute.
Defined.

Lemma rerank_count_witness :
  exists out,
    rerank.rerank "Java developer, 20 mins" sample.catalog 10 = Py.Ok out /\
    length out = 8%nat.
Proof.
  destruct (rerank_count "Java developer, 20 mins" sample.catalog 10 (Some 20))
    as (out & Hout & Hlen).
  - by vm_compute.
  - apply (bool_decide_unpack _). by vm_compute.
  - exists out. split; [exact Hout|]. rewrite Hlen. by vm_compute.
Defined.



(** ** More on [normalize_input], the index and the retrieval *)

Section retrieval_more.
Context {Score Vec : Type}.
Implicit Types (m : list (rerank.candidate Score)) (rows : list nat)
  (scores : list Score).
Variable fetch_jd_from_url : string -> Py.result string.
Variable embed_text : string -> Py.result Vec.
Variable normalize_L2 : Vec -> Vec.

Lemma lstrip_all_space (s : string) :
  shape.all_space s = true -> Py.lstrip s = EmptyString.
Proof.
  induction s as [|c s IH]; [done|].
  simpl. intros [Hc Hs]%andb_true_iff. rewrite Hc. by apply IH.
Qed.

(** A query of white space only counts as given: [normalize_input]
    accepts it and gives the empty text, or a blank line and the page
    when a URL comes with it. *)
Theorem normalize_input_blank_query (q u jd : string) :
  q <> EmptyString -> shape.all_space q = true ->
  retrieval.normalize_input fetch_jd_from_url (Some q) None = Py.Ok EmptyString /\
  (u <> EmptyString -> fetch_jd_from_url u = Py.Ok jd ->
   retrieval.normalize_input fetch_jd_from_url (Some q) (Some u)
   = Py.Ok (Py.newlines +:+ jd)).
Proof.
  intros Hq Hs.
  assert (Hstrip : Py.strip q = EmptyString)
    by (unfold Py.strip; by rewrite (lstrip_all_space q Hs)).
  unfold retrieval.normalize_input. split.
  - rewrite (truthy_Some q Hq). simpl. by rewrite Hstrip.
  - intros Hu Hf. rewrite (truthy_Some u Hu), (truthy_Some q Hq). simpl.
    by rewrite Hf, Hstrip.
Qed.

Lemma rows_of_ok (n : nat) (idxs : list Z) :
  Forall (fun i => - Z.of_nat n <= i) idxs ->
  indexer.rows_of n idxs
  = Py.Ok (map (shape.row_of_label n) (filter (fun i => i < Z.of_nat n) idxs)).
Proof.
  induction 1 as [|i idxs Hi _ IH]; [done|].
  simpl. rewrite filter_cons.
  destruct (Z.ltb_spec i (Z.of_nat n)) as [Hlt|Hge].
  - rewrite decide_True by done.
    destruct (Z.ltb_spec (if i <? 0 then Z.of_nat n + i else i) 0) as [Hneg|_].
    { destruct (Z.ltb_spec i 0); lia. }
    rewrite IH. reflexivity.
  - rewrite decide_False by lia. exact IH.
Qed.

(** Labels of FAISS to rows of the metadata: a label from [len(meta)]
    on is dropped, a label from [-len(meta)] to [-1] counts from the end
    of the metadata as Python's indices do (so the label [-1] that stands
    for no result is the last row), and a label below [-len(meta)]
    raises [IndexError]. *)
Theorem rows_of_labels (n : nat) (idxs : list Z) :
  (Forall (fun i => - Z.of_nat n <= i) idxs ->
   indexer.rows_of n idxs
   = Py.Ok (map (shape.row_of_label n) (filter (fun i => i < Z.of_nat n) idxs))) /\
  (Exists (fun i => i < - Z.of_nat n) idxs ->
   indexer.rows_of n idxs = Py.Raise Py.IndexError).
Proof.
  split; [apply rows_of_ok|].
  - induction 1 as [i idxs Hi|i idxs _ IH]; simpl.
    + destruct (Z.ltb_spec i (Z.of_nat n)) as [_|?]; [|lia].
      destruct (Z.ltb_spec i 0) as [_|?]; [|lia].
      destruct (Z.ltb_spec (Z.of_nat n + i) 0) as [_|?]; [done | lia].
    + rewrite IH.
      destruct (i <? Z.of_nat n); [|done].
      by destruct (_ <? 0).
Qed.

(** [search] loads the index first when it is not loaded yet: with the
    two files on disk it answers as on the loaded index, and without
    them [search] and [get_size] raise before FAISS is asked. *)
Theorem search_loads_first (self : indexer.CatalogIndex (Score := Score) (Vec := Vec))
    (query_vec : Vec) (top_k : Z) :
  indexer.index self = None ->
  (forall idx m, indexer.artifacts self = Some (idx, m) ->
     indexer.search normalize_L2 self query_vec top_k
     = indexer.search normalize_L2
         {| indexer.artifacts := indexer.artifacts self;
            indexer.index := Some idx;
            indexer.meta := Some m |} query_vec top_k /\
     indexer.get_size self
     = Py.Ok ({| indexer.artifacts := indexer.artifacts self;
                 indexer.index := Some idx;
                 indexer.meta := Some m |}, indexer.ntotal idx)) /\
  (indexer.artifacts self = None ->
   indexer.search normalize_L2 self query_vec top_k
     = Py.Raise (Py.External "FileNotFoundError") /\
   indexer.get_size self = Py.Raise (Py.External "FileNotFoundError")).
Proof.
  intros Hidx. split.
  - intros idx m Hart. unfold indexer.search, indexer.get_size, indexer.load.
    rewrite Hidx, Hart. by simpl.
  - intros Hart. unfold indexer.search, indexer.get_size, indexer.load.
    by rewrite Hidx, Hart.
Qed.

Lemma same_item_refl (c : rerank.candidate Score) : shape.same_item c c.
Proof. by repeat split. Qed.

Lemma same_item_trans (a b c : rerank.candidate Score) :
  shape.same_item a b -> shape.same_item b c -> shape.same_item a c.
Proof. unfold shape.same_item. intros H1 H2. intuition congruence. Qed.

Lemma set_score_same m (row : nat) (score : Score) :
  Forall2 shape.same_item m (retrieval.set_score m row score).
Proof.
  unfold retrieval.set_score. revert row.
  induction m as [|c m IH]; intros row; [constructor|].
  destruct row as [|row]; simpl.
  - constructor; [by repeat split|].
    apply Forall_Forall2_diag, Forall_forall. intros x _. apply same_item_refl.
  - constructor; [apply same_item_refl | apply IH].
Qed.

Lemma Forall2_same_item_trans m1 m2 m3 :
  Forall2 shape.same_item m1 m2 -> Forall2 shape.same_item m2 m3 ->
  Forall2 shape.same_item m1 m3.
Proof.
  intros H12. revert m3. induction H12 as [|a b m1 m2 Hab _ IH]; intros m3 H23.
  - by inversion H23.
  - inversion H23 as [|? c ? m3' Hbc H23']; subst. constructor.
    + by apply (same_item_trans a b c).
    + by apply IH.
Qed.

Lemma attach_scores_same m scores rows :
  Forall2 shape.same_item m (retrieval.attach_scores m scores rows).
Proof.
  revert m rows. induction scores as [|s scores IH]; intros m rows; simpl.
  - apply Forall_Forall2_diag, Forall_forall. intros x _. apply same_item_refl.
  - destruct rows as [|row rows].
    + apply Forall_Forall2_diag, Forall_forall. intros x _. apply same_item_refl.
    + eapply Forall2_same_item_trans; [apply set_score_same | apply IH].
Qed.

(** What [retrieve_candidates] changes and what it keeps, on a loaded
    index: the metadata of the index keeps its length and every row
    keeps its catalog fields (only the score is written), the index and
    its files are the same, and every candidate returned is a row of the
    metadata with its catalog fields. *)
Theorem retrieve_candidates_keeps_catalog
    (index index' : indexer.CatalogIndex (Score := Score) (Vec := Vec))
    (idx : indexer.flat_index) m (query : string) (top_k : Z)
    (candidates : list (rerank.candidate Score)) :
  indexer.index index = Some idx -> indexer.meta index = Some m ->
  retrieval.retrieve_candidates embed_text normalize_L2 index query top_k
    = Py.Ok (index', candidates) ->
  indexer.index index' = Some idx /\
  indexer.artifacts index' = indexer.artifacts index /\
  (exists m', indexer.meta index' = Some m' /\
              Forall2 shape.same_item m m' /\
              Forall (fun c => exists row c0,
                        m !! row = Some c0 /\ m' !! row = Some c /\
                        shape.same_item c0 c) candidates).
Proof.
  intros Hidx Hmeta. unfold retrieval.retrieve_candidates, indexer.search.
  destruct (embed_text query) as [q_vec|e]; [|discriminate]. simpl.
  rewrite Hidx. simpl. rewrite Hidx, Hmeta.
  destruct (indexer.flat_search idx _ _) as [[scores idxs]|e]; [|discriminate].
  simpl. destruct (indexer.rows_of (length m) idxs) as [rows|e]; [|discriminate].
  simpl. rewrite Hmeta. simpl. intros [= <- <-]. simpl.
  split; [done|]. split; [done|].
  exists (retrieval.attach_scores m scores rows).
  pose proof (attach_scores_same m scores rows) as Hsame.
  split; [done|]. split; [done|].
  apply Forall_forall. intros c Hc.
  apply list_elem_of_omap in Hc as (row & _ & Hrow).
  destruct (Forall2_lookup_r _ _ _ _ _ Hsame Hrow) as (c0 & Hc0 & Hs).
  by exists row, c0.
Qed.

Lemma attach_scores_length m scores rows :
  length (retrieval.attach_scores m scores rows) = length m.
Proof. symmetry. apply (Forall2_length _ _ _ (attach_scores_same m scores rows)). Qed.

Lemma attach_scores_other m scores rows (r : nat) :
  r ∉ rows -> retrieval.attach_scores m scores rows !! r = m !! r.
Proof.
  revert m rows. induction scores as [|s scores IH]; intros m rows Hr; [done|].
  destruct rows as [|row rows]; [done|]. simpl.
  apply not_elem_of_cons in Hr as [Hne Hr].
  rewrite IH by done. unfold retrieval.set_score.
  by apply list_lookup_alter_ne.
Qed.

(** The score of position [i] ends up in row [rows[i]], when no other
    position names that row. *)
Lemma attach_scores_at m scores rows (i r : nat) (s : Score) :
  NoDup rows -> rows !! i = Some r -> scores !! i = Some s ->
  (r < length m)%nat ->
  exists c c0, retrieval.attach_scores m scores rows !! r = Some c /\
               m !! r = Some c0 /\ shape.same_item c0 c /\
               rerank.retrieval_score c = rerank.Has s.
Proof.
  revert m scores rows. induction i as [|i IH]; intros m scores rows Hnd Hr Hs Hlen.
  - destruct rows as [|r' rows]; [discriminate|]. injection Hr as ->.
    destruct scores as [|s' scores]; [discriminate|]. injection Hs as ->.
    simpl. apply NoDup_cons in Hnd as [Hnotin _].
    rewrite attach_scores_other by done.
    destruct (lookup_lt_is_Some_2 m r Hlen) as [c0 Hc0].
    unfold retrieval.set_score. rewrite list_lookup_alter_eq, Hc0. simpl.
    eexists _, c0. split; [done|]. split; [done|]. by repeat split.
  - destruct rows as [|r' rows]; [discriminate|].
    destruct scores as [|s' scores]; [discriminate|]. simpl in *.
    apply NoDup_cons in Hnd as [Hnotin Hnd].
    destruct (IH (retrieval.set_score m r' s') scores rows Hnd Hr Hs)
      as (c & c1 & Hc & Hc1 & Hsame & Hscore).
    { unfold retrieval.set_score. by rewrite length_alter. }
    destruct (Forall2_lookup_r _ _ _ _ _ (set_score_same m r' s') Hc1)
      as (c0 & Hc0 & Hs0).
    exists c, c0. split; [done|]. split; [done|].
    split; [by apply (same_item_trans c0 c1 c) | done].
Qed.

Lemma omap_lookup_valid m rows :
  Forall (fun r => (r < length m)%nat) rows ->
  length (omap (fun r => m !! r) rows) = length rows /\
  forall i r, rows !! i = Some r -> omap (fun r => m !! r) rows !! i = m !! r.
Proof.
  induction 1 as [|r rows Hr _ [IHlen IH]]; [done|].
  destruct (lookup_lt_is_Some_2 m r Hr) as [c Hc].
  csimpl. rewrite Hc. csimpl. split; [by rewrite IHlen|].
  intros [|i] r'; simpl; [by intros [= <-] | apply IH].
Qed.

(** With distinct labels inside the metadata and a score for each, the
    [i]-th candidate that [retrieve_candidates] returns is the row of
    the [i]-th label, with its catalog fields and with the [i]-th score
    attached under [retrieval_score]; there are as many candidates as
    labels. *)
Theorem retrieve_candidates_attaches_scores
    (index : indexer.CatalogIndex (Score := Score) (Vec := Vec))
    (idx : indexer.flat_index) m (query : string) (top_k : Z) (q_vec : Vec)
    scores (idxs : list Z) :
  indexer.index index = Some idx -> indexer.meta index = Some m ->
  embed_text query = Py.Ok q_vec ->
  indexer.flat_search idx (normalize_L2 q_vec) (Z.min top_k (indexer.ntotal idx))
    = Py.Ok (scores, idxs) ->
  Forall (fun i => 0 <= i < Z.of_nat (length m)) idxs -> NoDup idxs ->
  (length idxs <= length scores)%nat ->
  exists index' candidates,
    retrieval.retrieve_candidates embed_text normalize_L2 index query top_k
      = Py.Ok (index', candidates) /\
    length candidates = length idxs /\
    forall i label score,
      idxs !! i = Some label -> scores !! i = Some score ->
      exists c c0,
        candidates !! i = Some c /\ m !! Z.to_nat label = Some c0 /\
        shape.same_item c0 c /\ rerank.retrieval_score c = rerank.Has score.
Proof.
  intros Hidx Hmeta Hembed Hflat Hrange Hnd Hlen.
  assert (Hrows : indexer.rows_of (length m) idxs = Py.Ok (map Z.to_nat idxs)).
  { rewrite rows_of_ok by (eapply Forall_impl; [exact Hrange | simpl; lia]).
    f_equal. clear Hnd Hlen Hflat.
    induction Hrange as [|i idxs [H0 Hi] _ IH]; [done|].
    rewrite filter_cons, decide_True by done. simpl. rewrite IH. f_equal.
    unfold shape.row_of_label. by destruct (Z.ltb_spec i 0); [lia|]. }
  assert (Hnd' : NoDup (map Z.to_nat idxs)).
  { clear Hrows Hlen Hflat. induction Hrange as [|i idxs [H0 Hi] Hrange IH]; [constructor|].
    apply NoDup_cons in Hnd as [Hnotin Hnd]. simpl. apply NoDup_cons.
    split; [|by apply IH].
    intros (j & Hj & Hin)%list_elem_of_fmap. apply Hnotin.
    rewrite Forall_forall in Hrange. pose proof (Hrange j Hin).
    replace i with j by lia. done. }
  assert (Hvalid : Forall (fun r => (r < length m)%nat) (map Z.to_nat idxs)).
  { apply Forall_fmap. eapply Forall_impl; [exact Hrange | simpl; lia]. }
  unfold retrieval.retrieve_candidates, indexer.search.
  rewrite Hembed. simpl. rewrite Hidx. simpl. rewrite Hidx, Hmeta, Hflat. simpl.
  rewrite Hrows. simpl. rewrite Hmeta. simpl.
  eexists _, _. split; [reflexivity|].
  destruct (omap_lookup_valid
              (retrieval.attach_scores m scores (map Z.to_nat idxs))
              (map Z.to_nat idxs)) as [Hl Hlook].
  { by rewrite attach_scores_length. }
  split; [by rewrite Hl, length_map|].
  intros i label score Hi Hs.
  assert (Hrow : map Z.to_nat idxs !! i = Some (Z.to_nat label))
    by (by rewrite list_lookup_fmap, Hi).
  rewrite (Hlook i _ Hrow).
  destruct (attach_scores_at m scores (map Z.to_nat idxs) i (Z.to_nat label) score)
    as (c & c0 & Hc & Hc0 & Hsame & Hscore); try done.
  { rewrite Forall_forall in Hvalid. apply Hvalid.
    apply list_elem_of_lookup. by exists i. }
  by exists c, c0.
Qed.

End retrieval_more.

Lemma normalize_input_blank_query_witness :
  retrieval.normalize_input sample.fetch (Some "   ") None = Py.Ok EmptyString.
Proof.
  apply (normalize_input_blank_query sample.fetch "   " "u" "jd");
    [discriminate | reflexivity].
Defined.

Lemma rows_of_labels_witness :
  indexer.rows_of 3 [0; -1; 5; 2] = Py.Ok [0%nat; 2%nat; 2%nat] /\
  indexer.rows_of 3 [0; -4] = Py.Raise Py.IndexError.
Proof.
  split.
  - refine (eq_trans (proj1 (rows_of_labels 3 [0; -1; 5; 2]) _) _); [|reflexivity].
    repeat constructor; simpl; lia.
  - apply (proj2 (rows_of_labels 3 [0; -4])).
    apply Exists_cons_tl, Exists_cons_hd. simpl. lia.
Defined.

Lemma search_loads_first_witness :
  indexer.get_size sample_api.unloaded
  = Py.Ok (sample.service, 14).
Proof.
  refine (eq_trans (proj2 (proj1 (search_loads_first id sample_api.unloaded tt 5 eq_refl)
                     sample.flat sample.catalog eq_refl)) _).
  reflexivity.
Defined.

Lemma retrieve_candidates_keeps_catalog_witness :
  exists index' candidates,
    retrieval.retrieve_candidates sample.embed id sample.service "java" 3
      = Py.Ok (index', candidates) /\
    indexer.artifacts index' = indexer.artifacts sample.service.
Proof.
  pose proof (retrieve_candidates_keeps_catalog sample.embed id sample.service) as H.
  destruct (retrieval.retrieve_candidates sample.embed id sample.service "java" 3)
    as [[index' candidates]|e] eqn:Hr; [|by vm_compute in Hr].
  exists index', candidates. split; [reflexivity|].
  exact (proj1 (proj2 (H index' sample.flat sample.catalog "java" 3 candidates
                         eq_refl eq_refl Hr))).
Defined.

Lemma retrieve_candidates_attaches_scores_witness :
  exists index' candidates,
    retrieval.retrieve_candidates sample.embed id sample.service "java" 3
      = Py.Ok (index', candidates) /\
    length candidates = 3%nat.
Proof.
  destruct (retrieve_candidates_attaches_scores sample.embed id sample.service
              sample.flat sample.catalog "java" 3 tt [100; 99; 98] [0; 1; 2])
    as (index' & candidates & Hr & Hlen & _);
    [reflexivity | reflexivity | reflexivity | reflexivity
    | repeat constructor; simpl; lia
    | apply (bool_decide_unpack _); by vm_compute
    | simpl; lia |].
  by exists index', candidates.
Defined.

(** ** The [/recommend] endpoint *)

Section endpoint_facts.
Context {Score Vec : Type} `{EqDecision Score}.
Variable fetch_jd_from_url : string -> Py.result string.
Variable embed_text : string -> Py.result Vec.
Variable normalize_L2 : Vec -> Vec.
Variable load_model : Py.result unit.
Variable message : Py.exn -> string.

#[local] Abbreviation handler :=
  (main.recommend (Score := Score) (Vec := Vec)
     fetch_jd_from_url embed_text normalize_L2 load_model message).
#[local] Abbreviation process :=
  (main.process (Score := Score) (Vec := Vec)
     fetch_jd_from_url embed_text normalize_L2 load_model).
#[local] Abbreviation engine_of :=
  (main.get_engine (Score := Score) (Vec := Vec) load_model).

Lemma to_assessments_length (rs : list recommend.recommendation)
    (l : list main.AssessmentRecommendation) :
  main.to_assessments rs = Py.Ok l -> length l = length rs.
Proof.
  revert l. induction rs as [|r rs IH]; intros l; simpl.
  - by intros [= <-].
  - destruct (main.to_assessment r) as [a|e]; [|discriminate]. simpl.
    destruct (main.to_assessments rs) as [rest|e]; [|discriminate]. simpl.
    intros [= <-]. simpl. by rewrite (IH rest).
Qed.

Lemma to_assessments_refuses (rs : list recommend.recommendation) :
  Exists (fun r => recommend.assessment_name r = None \/
                   recommend.assessment_url r = None) rs ->
  main.to_assessments rs = Py.Raise (Py.External "ValidationError").
Proof.
  induction 1 as [r rs Hr|r rs _ IH]; simpl.
  - unfold main.to_assessment.
    destruct Hr as [-> | ->]; [done|].
    by destruct (recommend.assessment_name r).
  - rewrite IH. unfold main.to_assessment.
    by destruct (recommend.assessment_name r), (recommend.assessment_url r).
Qed.

Lemma process_shape (g : main.globals) (payload : main.RecommendRequest)
    (r : main.RecommendResponse) :
  process g payload = Py.Ok r ->
  main.count r = Z.of_nat (length (main.results r)) /\
  (length (main.results r) <= 10)%nat /\
  (main.results r = [] -> main.query_processed r = None) /\
  (main.results r <> [] ->
   main.query_processed r
   = Some (if Py.truthy (main.query payload)
           then default EmptyString (main.query payload)
           else "JD URL provided")).
Proof.
  unfold main.process.
  destruct (main.get_engine _ g) as [[g' engine]|e]; [|discriminate]. simpl.
  destruct (recommend.recommend _ _ _ _ _ _ _) as [[s results]|e]; [|discriminate].
  simpl.
  pose proof (slice_to_length results main.MAX_RECOMMENDATIONS) as Hlen.
  destruct (Py.slice_to results main.MAX_RECOMMENDATIONS) as [|r0 rs] eqn:Hs.
  - intros [= <-]. simpl. repeat split; try done. lia.
  - destruct (main.to_assessments (r0 :: rs)) as [l|e] eqn:Hl; [|discriminate].
    simpl. intros [= <-]. simpl.
    apply to_assessments_length in Hl.
    split; [done|]. split.
    { rewrite Hl. unfold main.MAX_RECOMMENDATIONS in Hlen. lia. }
    split; [|done].
    intros ->. discriminate Hl.
Qed.

(** An answer of the endpoint that is a response is consistent: [count]
    is the number of results, there are ten results at most, and the
    processed query is absent exactly on an empty result; otherwise it
    is the query, or the fixed text for a request with a URL only. *)
Theorem endpoint_response_shape (g : main.globals) (payload : main.RecommendRequest)
    (r : main.RecommendResponse) :
  handler g payload = main.Returns r ->
  main.count r = Z.of_nat (length (main.results r)) /\
  (length (main.results r) <= 10)%nat /\
  (main.results r = [] -> main.query_processed r = None) /\
  (main.results r <> [] ->
   main.query_processed r
   = Some (if Py.truthy (main.query payload)
           then default EmptyString (main.query payload)
           else "JD URL provided")).
Proof.
  unfold main.recommend. destruct (_ && _); [discriminate|].
  destruct (main.process _ _ _ _ g payload) as [r'|e] eqn:Hp; [|discriminate].
  intros [= <-]. exact (process_shape g payload r' Hp).
Qed.

(** The endpoint fails with status 400 or 500 and nothing else: 400
    exactly for a request whose query and URL are both missing or
    empty, whatever the state of the engine, and 500 for every exception
    raised while the request is processed, with its message. *)
Theorem endpoint_status_codes (g : main.globals) (payload : main.RecommendRequest) :
  (Py.truthy (main.query payload) = false ->
   Py.truthy (main.jd_url payload) = false ->
   handler g payload
   = main.HTTPException 400 "Either 'query' or 'jd_url' must be provided") /\
  (forall code detail,
     handler g payload = main.HTTPException code detail ->
     (code = 400 /\ Py.truthy (main.query payload) = false /\
      Py.truthy (main.jd_url payload) = false) \/
     (code = 500 /\ exists e,
        process g payload = Py.Raise e /\
        detail = "Recommendation processing failed: " +:+ message e)).
Proof.
  unfold main.recommend. split.
  - by intros -> ->.
  - intros code detail.
    destruct (Py.truthy (main.query payload)), (Py.truthy (main.jd_url payload));
      simpl; try (destruct (main.process _ _ _ _ g payload) as [r|e] eqn:Hp;
                  [discriminate|]; intros [= <- <-]; right; split; [done|];
                  by exists e).
    intros [= <- <-]. by left.
Qed.

(** One record without a name or without a URL among the first ten
    results fails the whole request with status 500: the response model
    requires both as strings, and no partial list is returned. *)
Theorem endpoint_null_url (g g' : main.globals) (payload : main.RecommendRequest)
    (engine service : indexer.CatalogIndex (Score := Score) (Vec := Vec))
    (results : list recommend.recommendation) :
  Py.truthy (main.query payload) || Py.truthy (main.jd_url payload) = true ->
  engine_of g = Py.Ok (g', engine) ->
  recommend.recommend fetch_jd_from_url embed_text normalize_L2 engine
    (main.query payload) (main.jd_url payload) 10 = Py.Ok (service, results) ->
  Exists (fun r => recommend.assessment_name r = None \/
                   recommend.assessment_url r = None) (take 10 results) ->
  handler g payload
  = main.HTTPException 500
      ("Recommendation processing failed: "
       +:+ message (Py.External "ValidationError")).
Proof.
  intros Hin Hg Hrec Hex. unfold main.recommend, main.process.
  replace (negb (Py.truthy (main.query payload))
           && negb (Py.truthy (main.jd_url payload))) with false
    by (by destruct (Py.truthy (main.query payload)), (Py.truthy (main.jd_url payload))).
  rewrite Hg. simpl. unfold main.DEFAULT_TOP_K. rewrite Hrec. simpl.
  unfold main.MAX_RECOMMENDATIONS.
  change (Py.slice_to results 10) with (take 10 results).
  destruct (take 10 results) as [|r0 rs] eqn:Ht; [by inversion Hex|].
  by rewrite (to_assessments_refuses _ Hex).
Qed.

(** The engine is built once: after a call of [get_engine] that
    succeeds the engine is kept, its index is loaded, and the next call
    returns it without loading the model or reading the files again;
    without the two files the call raises before the model is loaded. *)
Theorem get_engine_once (g g' : main.globals)
    (engine : indexer.CatalogIndex (Score := Score) (Vec := Vec)) :
  (engine_of g = Py.Ok (g', engine) ->
   main._engine g' = Some engine /\
   main.files g' = main.files g /\
   (main._engine g = None -> indexer.index engine <> None) /\
   forall other_model,
     main.get_engine (Score := Score) (Vec := Vec) other_model g'
     = Py.Ok (g', engine)) /\
  (main._engine g = None -> main.files g = None ->
   engine_of g = Py.Raise (Py.External "FileNotFoundError")).
Proof.
  unfold main.get_engine. split.
  - destruct g as [[e0|] fs]; simpl.
    + intros [= <- <-]. simpl. by repeat split.
    + destruct fs as [[idx m]|]; [|discriminate].
      destruct load_model as [[]|e]; [|discriminate]. simpl.
      intros [= <- <-]. simpl. by repeat split.
  - by intros -> ->.
Qed.

End endpoint_facts.

Lemma endpoint_response_shape_witness :
  exists r,
    main.recommend (Score := Z) sample.fetch sample.embed id (Py.Ok tt)
      sample_api.message sample_api.fresh
      (main.Request (Some "Java developer") None)
      = main.Returns r /\
    main.count r = Z.of_nat (length (main.results r)).
Proof.
  destruct (main.recommend (Score := Z) sample.fetch sample.embed id (Py.Ok tt)
              sample_api.message sample_api.fresh
              (main.Request (Some "Java developer") None)) as [r|code detail] eqn:E;
    [|by vm_compute in E].
  exists r. split; [reflexivity|].
  exact (proj1 (endpoint_response_shape sample.fetch sample.embed id (Py.Ok tt)
                  sample_api.message sample_api.fresh
                  (main.Request (Some "Java developer") None) r E)).
Defined.

Lemma endpoint_status_codes_witness :
  sample_api.handler sample_api.fresh (main.Request (Some EmptyString) None)
  = main.HTTPException 400 "Either 'query' or 'jd_url' must be provided".
Proof.
  exact (proj1 (endpoint_status_codes sample.fetch sample.embed id (Py.Ok tt)
                  sample_api.message sample_api.fresh
                  (main.Request (Some EmptyString) None)) eq_refl eq_refl).
Defined.

Lemma endpoint_null_url_witness :
  sample_api.handler sample_api.fresh_null_url (main.Request (Some "anything") None)
  = main.HTTPException 500 "Recommendation processing failed: ValidationError".
Proof.
  pose proof (endpoint_null_url sample.fetch sample.embed id (Py.Ok tt)
                sample_api.message sample_api.fresh_null_url) as H.
  destruct (main.get_engine (Score := Z) (Vec := unit) (Py.Ok tt)
              sample_api.fresh_null_url) as [[g' engine]|e] eqn:Hg;
    [|by vm_compute in Hg].
  destruct (recommend.recommend (Score := Z) sample.fetch sample.embed id engine
              (Some "anything") None 10) as [[service results]|e] eqn:Hr.
  2: { vm_compute in Hg. injection Hg as <- <-. by vm_compute in Hr. }
  refine (H g' (main.Request (Some "anything") None) engine service results
            eq_refl eq_refl Hr _).
  vm_compute in Hg. injection Hg as <- <-.
  vm_compute in Hr. injection Hr as <- <-.
  apply Exists_cons_tl, Exists_cons_hd. by right.
Defined.

Lemma get_engine_once_witness :
  exists g' engine,
    main.get_engine (Score := Z) (Vec := unit) (Py.Ok tt) sample_api.fresh
      = Py.Ok (g', engine) /\
    main._engine g' = Some engine.
Proof.
  pose proof (get_engine_once (Score := Z) (Vec := unit) (Py.Ok tt) sample_api.fresh) as H.
  destruct (main.get_engine (Score := Z) (Vec := unit) (Py.Ok tt) sample_api.fresh)
    as [[g' engine]|e] eqn:Hg; [|by vm_compute in Hg].
  exists g', engine. split; [reflexivity|].
  exact (proj1 (proj1 (H g' engine) eq_refl)).
Defined.

(** ** Recall and precision at [k] *)

Section metrics_facts.

Lemma digits2_pos_bound (p : positive) :
  forall k, 0 <= k -> Z.pos p <= 2 ^ k -> Z.pos (digits2_pos p) <= k + 1.
Proof.
  induction p as [p IH|p IH|]; intros k Hk Hp; simpl; [| |lia].
  - destruct (decide (k = 0)) as [->|Hk0]; [simpl in Hp; lia|].
    replace k with (Z.succ (k - 1)) in Hp by lia.
    rewrite Z.pow_succ_r in Hp by lia.
    specialize (IH (k - 1)). lia.
  - destruct (decide (k = 0)) as [->|Hk0]; [simpl in Hp; lia|].
    replace k with (Z.succ (k - 1)) in Hp by lia.
    rewrite Z.pow_succ_r in Hp by lia.
    specialize (IH (k - 1)). lia.
Qed.

Lemma Zdigits2_bound (m k : Z) :
  0 <= m -> 0 <= k -> m <= 2 ^ k -> Zdigits2 m <= k + 1.
Proof.
  intros Hm Hk Hle. destruct m as [|p|p]; simpl; [lia| |lia].
  by apply digits2_pos_bound.
Qed.

Lemma shr_1_below_one (mrs : shr_record) (e : Z) :
  shape.below_one mrs e -> e + 1 <= 0 -> shape.below_one (shr_1 mrs) (e + 1).
Proof.
  intros (Hm & He & Hup) He1. unfold shape.below_one, shape.round_up in *.
  replace (- e) with (Z.succ (- (e + 1))) in Hup by lia.
  rewrite Z.pow_succ_r in Hup by lia.
  destruct mrs as [m r s]. simpl in *.
  destruct m as [|[p|p|]|p]; simpl; try lia;
    destruct r, s; simpl in *; lia.
Qed.

Lemma iter_shr_1_below_one (p : positive) :
  forall mrs e, shape.below_one mrs e -> e + Z.pos p <= 0 ->
    shape.below_one (SpecFloat.iter_pos shr_1 p mrs) (e + Z.pos p).
Proof.
  induction p as [p IH|p IH|]; intros mrs e H Hp; simpl.
  - replace (e + Z.pos p~1) with (e + 1 + Z.pos p + Z.pos p) by lia.
    apply IH; [|lia]. apply IH; [|lia].
    apply shr_1_below_one; [done|lia].
  - replace (e + Z.pos p~0) with (e + Z.pos p + Z.pos p) by lia.
    apply IH; [|lia]. apply IH; [done|lia].
  - by apply shr_1_below_one.
Qed.

Lemma shr_fexp_below_one (m e : Z) (l : location) :
  shape.below_one (shr_record_of_loc m l) e ->
  shape.below_one (shr_fexp PyFloat.prec PyFloat.emax m e l).1
            (shr_fexp PyFloat.prec PyFloat.emax m e l).2.
Proof.
  intros H. unfold shr_fexp, shr.
  destruct (fexp PyFloat.prec PyFloat.emax (Zdigits2 m + e) - e) as [|p|p] eqn:Hn;
    simpl; try done.
  apply iter_shr_1_below_one; [done|].
  destruct H as (Hm & He & Hup).
  assert (Hmle : m <= 2 ^ (- e)).
  { unfold shape.round_up in Hup.
    replace (shr_m (shr_record_of_loc m l)) with m in Hup by (by destruct l as [|[]]).
    destruct (_ || _); lia. }
  assert (Hm0 : 0 <= m) by (by destruct l as [|[]]).
  pose proof (Zdigits2_bound m (- e) Hm0 ltac:(lia) Hmle) as Hd.
  unfold fexp, emin, PyFloat.prec, PyFloat.emax in Hn. lia.
Qed.

Lemma round_nearest_even_below (mrs : shr_record) :
  round_nearest_even (shr_m mrs) (loc_of_shr_record mrs) <= shape.round_up mrs.
Proof.
  destruct mrs as [m [] []]; unfold shape.round_up; simpl; try lia.
  destruct (Z.even m); lia.
Qed.

(** Rounding what is at most one gives a float between zero and one. *)
Lemma binary_round_aux_unit (m e : Z) (l : location) :
  shape.below_one (shr_record_of_loc m l) e ->
  shape.in_unit_interval (binary_round_aux PyFloat.prec PyFloat.emax false m e l)
  = true.
Proof.
  intros H. unfold binary_round_aux.
  pose proof (shr_fexp_below_one m e l H) as H1.
  destruct (shr_fexp PyFloat.prec PyFloat.emax m e l) as [mrs' e'].
  simpl in H1. destruct H1 as (Hm1 & He1 & Hup1).
  pose proof (shr_fexp_below_one
                (round_nearest_even (shr_m mrs') (loc_of_shr_record mrs')) e'
                loc_Exact) as H2.
  destruct (shr_fexp PyFloat.prec PyFloat.emax _ e' loc_Exact) as [mrs'' e''].
  simpl in H2.
  destruct H2 as (Hm2 & He2 & Hup2).
  { pose proof (round_nearest_even_below mrs') as Hr.
    pose proof (round_nearest_even_nonneg _ (loc_of_shr_record mrs') Hm1) as Hr0.
    unfold shape.below_one, shape.round_up. simpl. lia. }
  unfold shape.round_up in Hup2.
  destruct (shr_m mrs'') as [|p|p]; [done| |lia].
  replace (e'' <=? PyFloat.emax - PyFloat.prec) with true
    by (symmetry; apply Z.leb_le; unfold PyFloat.emax, PyFloat.prec; lia).
  simpl. apply andb_true_iff. split; [by apply Z.leb_le|].
  apply Z.leb_le. destruct (_ || _); lia.
Qed.

Lemma new_location_exact (nb_steps k : Z) :
  new_location nb_steps k = loc_Exact <-> k = 0.
Proof.
  unfold new_location, new_location_even, new_location_odd.
  destruct (Z.even nb_steps); destruct (Z.eqb_spec k 0); split; try done.
Qed.

Lemma round_up_of_loc (m : Z) (l : location) :
  shape.round_up (shr_record_of_loc m l)
  = m + (match l with loc_Exact => 0 | _ => 1 end).
Proof. by destruct l as [|[]]. Qed.

(** The scaled quotient of [SFdiv] for two integers [a <= b]. *)
Lemma div_core_below_one (a b : positive) :
  (a <= b)%positive ->
  shape.below_one
    (shr_record_of_loc
       (SFdiv_core_binary PyFloat.prec PyFloat.emax (Z.pos a) 0 (Z.pos b) 0).1.1
       (SFdiv_core_binary PyFloat.prec PyFloat.emax (Z.pos a) 0 (Z.pos b) 0).2)
    (SFdiv_core_binary PyFloat.prec PyFloat.emax (Z.pos a) 0 (Z.pos b) 0).1.2.
Proof.
  intros Hab. unfold SFdiv_core_binary.
  set (e' := Z.min _ (0 - 0)).
  assert (He' : e' <= 0) by (unfold e'; lia).
  set (m' := match 0 - 0 - e' with 0 => Z.pos a | Z.pos _ => _ | Z.neg _ => 0 end).
  assert (Hm' : m' = Z.pos a * 2 ^ (- e')).
  { unfold m'. destruct (0 - 0 - e') as [|s|s] eqn:Hs; [| |lia].
    - replace (- e') with 0 by lia. simpl. lia.
    - rewrite Z.shiftl_mul_pow2 by lia. f_equal. f_equal. lia. }
  pose proof (Z_div_mod m' (Z.pos b) ltac:(lia)) as Hdiv.
  destruct (Z.div_eucl m' (Z.pos b)) as [q r]. simpl.
  destruct Hdiv as [Heq Hr].
  assert (Hpow : 0 < 2 ^ (- e')) by (apply Z.pow_pos_nonneg; lia).
  assert (Hq0 : 0 <= q) by nia.
  unfold shape.below_one. rewrite round_up_of_loc.
  split; [by destruct (new_location _ _) as [|[]]|].
  split; [done|].
  destruct (new_location (Z.pos b) r) as [|c] eqn:Hl.
  - apply new_location_exact in Hl. subst r. nia.
  - assert (r <> 0) by (intros ->; by rewrite (proj2 (new_location_exact _ 0)) in Hl).
    nia.
Qed.

(** The quotient of two integers [0 <= a <= b], [0 < b], is a float
    between zero and one; the division raises nothing. *)
Lemma true_div_unit (a b : Z) :
  0 <= a <= b -> 0 < b ->
  exists x, metrics.true_div a b = Py.Ok x /\ shape.in_unit_interval x = true.
Proof.
  intros Ha Hb. unfold metrics.true_div.
  destruct b as [|b|b]; [lia| |lia].
  destruct a as [|a|a]; [by eexists| |lia].
  simpl Z.ltb. simpl Z.abs. simpl Z.to_pos. unfold SFdiv.
  pose proof (div_core_below_one a b ltac:(lia)) as H.
  destruct (SFdiv_core_binary _ _ _ _ _ _) as [[mz ez] lz]. simpl in H.
  pose proof (binary_round_aux_unit mz ez lz H) as Hu. simpl xorb.
  destruct (binary_round_aux _ _ _ _ _ _) as [[]|[]| |[] m e]; try discriminate;
    by eexists.
Qed.

(** An integer divided by itself is [1.0]. *)
Lemma true_div_self (n : Z) : 0 < n -> metrics.true_div n n = Py.Ok metrics.one.
Proof.
  intros Hn. unfold metrics.true_div.
  destruct n as [|n|n]; [lia| |lia].
  simpl Z.ltb. simpl Z.abs. simpl Z.to_pos. unfold SFdiv, SFdiv_core_binary.
  replace (Zdigits2 (Z.pos n) + 0 - (Zdigits2 (Z.pos n) + 0)) with 0 by lia.
  change (Z.min (fexp PyFloat.prec PyFloat.emax 0) (0 - 0)) with (-53).
  change (0 - 0 - -53) with 53.
  rewrite Z.shiftl_mul_pow2 by lia.
  rewrite (Z.mul_comm (Z.pos n)).
  pose proof (Z.div_mul (2 ^ 53) (Z.pos n) ltac:(lia)) as Hq.
  pose proof (Z.mod_mul (2 ^ 53) (Z.pos n) ltac:(lia)) as Hr.
  unfold Z.div, Z.modulo in Hq, Hr.
  destruct (Z.div_eucl (2 ^ 53 * Z.pos n) (Z.pos n)) as [q r].
  subst q r.
  rewrite (proj2 (new_location_exact (Z.pos n) 0) eq_refl).
  reflexivity.
Qed.

Lemma size_list_to_set_le (l : list string) :
  (size (list_to_set (C := gset string) l) <= length l)%nat.
Proof.
  induction l as [|x l IH].
  - by rewrite list_to_set_nil, size_empty.
  - rewrite list_to_set_cons, size_union_alt, size_singleton. simpl.
    pose proof (subseteq_size (list_to_set (C := gset string) l ∖ {[x]})
                  (list_to_set l) (subseteq_difference_l _ _ _ (reflexivity _))).
    lia.
Qed.

Lemma hits_bounds (relevant : gset string) (predicted : list string) (k : Z) :
  0 <= metrics.hits relevant predicted k <= Z.of_nat (size relevant) /\
  (0 <= k -> metrics.hits relevant predicted k <= k).
Proof.
  unfold metrics.hits. split; [split; [lia|]|].
  - apply inj_le, subseteq_size, intersection_subseteq_l.
  - intros Hk.
    pose proof (subseteq_size
      (relevant ∩ list_to_set (C := gset string) (Py.slice_to predicted k))
      (list_to_set (Py.slice_to predicted k)) (intersection_subseteq_r _ _)) as H1.
    pose proof (size_list_to_set_le (Py.slice_to predicted k)) as H2.
    pose proof (slice_to_length predicted k Hk). lia.
Qed.

Lemma size_pos (relevant : gset string) : relevant <> ∅ -> (0 < size relevant)%nat.
Proof.
  intros Hne. destruct (size relevant) eqn:Hs; [|lia].
  by apply size_empty_iff, leibniz_equiv in Hs.
Qed.

(** Recall at [k] raises nothing and lies between [0.0] and [1.0], for
    every set of relevant URLs, every list of predictions and every
    [k], negative ones included. *)
Theorem recall_at_k_range (relevant : gset string) (predicted : list string) (k : Z) :
  exists x,
    metrics.recall_at_k relevant predicted k = Py.Ok x /\
    shape.in_unit_interval x = true.
Proof.
  unfold metrics.recall_at_k.
  destruct (decide (relevant = ∅)) as [_|Hne]; [by eexists|].
  pose proof (hits_bounds relevant predicted k) as [Hh _].
  pose proof (size_pos relevant Hne).
  apply true_div_unit; lia.
Qed.

(** Recall at [k] is exactly [1.0] when every relevant URL is among
    the first [k] predictions, and exactly [0.0] when none is. *)
Theorem recall_at_k_extremes (relevant : gset string) (predicted : list string)
    (k : Z) :
  relevant <> ∅ ->
  ((forall url, url ∈ relevant -> url ∈ Py.slice_to predicted k) ->
   metrics.recall_at_k relevant predicted k = Py.Ok metrics.one) /\
  ((forall url, url ∈ relevant -> url ∉ Py.slice_to predicted k) ->
   metrics.recall_at_k relevant predicted k = Py.Ok metrics.zero).
Proof.
  intros Hne. unfold metrics.recall_at_k.
  destruct (decide (relevant = ∅)) as [|_]; [done|].
  pose proof (size_pos relevant Hne) as Hpos.
  unfold metrics.hits. split; intros H.
  - rewrite (subseteq_intersection_1_L relevant).
    2: { intros url Hu. apply elem_of_list_to_set. by apply H. }
    apply true_div_self. lia.
  - replace (relevant ∩ list_to_set (Py.slice_to predicted k))
      with (∅ : gset string).
    2: { symmetry. apply disjoint_intersection_L. intros url Hu Hp.
         apply elem_of_list_to_set in Hp. by apply (H url). }
    rewrite size_empty. unfold metrics.true_div. simpl.
    destruct (Z.of_nat (size relevant)) as [|p|p] eqn:Hs; [lia|done|lia].
Qed.

(** Precision at a [k] that is not negative raises nothing and lies
    between [0.0] and [1.0]; at [k = 0] it is [0.0] and nothing is
    divided. *)
Theorem precision_at_k_range (relevant : gset string) (predicted : list string)
    (k : Z) :
  0 <= k ->
  (exists x,
     metrics.precision_at_k relevant predicted k = Py.Ok x /\
     shape.in_unit_interval x = true) /\
  (k = 0 -> metrics.precision_at_k relevant predicted k = Py.Ok metrics.zero).
Proof.
  intros Hk. unfold metrics.precision_at_k. split.
  - destruct (Z.eqb_spec k 0) as [_|Hk0]; [by eexists|].
    pose proof (hits_bounds relevant predicted k) as [Hh Hhk].
    apply true_div_unit; lia.
  - by intros ->.
Qed.

(** Precision at [k] is [1.0] when the first [k] predictions are [k]
    different relevant URLs. *)
Theorem precision_at_k_perfect (relevant : gset string) (predicted : list string)
    (k : Z) :
  0 < k -> Z.of_nat (length predicted) >= k ->
  NoDup (Py.slice_to predicted k) ->
  (forall url, url ∈ Py.slice_to predicted k -> url ∈ relevant) ->
  metrics.precision_at_k relevant predicted k = Py.Ok metrics.one.
Proof.
  intros Hk Hlen Hnd Hrel. unfold metrics.precision_at_k.
  destruct (Z.eqb_spec k 0) as [|_]; [lia|].
  unfold metrics.hits.
  rewrite (comm_L (∩) relevant),
    (subseteq_intersection_1_L
       (list_to_set (C := gset string) (Py.slice_to predicted k)) relevant).
  2: { intros url Hu. apply elem_of_list_to_set in Hu. by apply Hrel. }
  rewrite size_list_to_set by done.
  rewrite slice_to_nonneg, length_take by lia.
  replace (Z.of_nat (Z.to_nat k `min` length predicted)) with k by lia.
  by apply true_div_self.
Qed.

End metrics_facts.

Lemma recall_at_k_extremes_witness :
  metrics.recall_at_k {[ "u1"; "u2" ]} ["u2"; "u3"; "u1"; "u4"] 3
  = Py.Ok metrics.one.
Proof.
  apply (recall_at_k_extremes {[ "u1"; "u2" ]} ["u2"; "u3"; "u1"; "u4"] 3).
  - intros H. by apply (f_equal (fun X : gset string => bool_decide ("u1" ∈ X))) in H.
  - intros url Hu.
    apply elem_of_union in Hu as [Hu|Hu]; apply elem_of_singleton in Hu; subst;
      apply (bool_decide_unpack _); by vm_compute.
Defined.

Lemma precision_at_k_range_witness :
  exists x,
    metrics.precision_at_k {[ "u1"; "u2" ]} ["u2"; "u3"; "u1"; "u4"] 3 = Py.Ok x /\
    shape.in_unit_interval x = true.
Proof.
  apply (precision_at_k_range {[ "u1"; "u2" ]} ["u2"; "u3"; "u1"; "u4"] 3). lia.
Defined.

Lemma precision_at_k_perfect_witness :
  metrics.precision_at_k {[ "u1"; "u2"; "u3" ]} ["u2"; "u1"; "u4"] 2
  = Py.Ok metrics.one.
Proof.
  apply (precision_at_k_perfect {[ "u1"; "u2"; "u3" ]} ["u2"; "u1"; "u4"] 2).
  - lia.
  - simpl. lia.
  - apply (bool_decide_unpack _). by vm_compute.
  - intros url Hu.
    apply elem_of_cons in Hu as [->|Hu];
      [apply (bool_decide_unpack _); by vm_compute|].
    apply elem_of_cons in Hu as [->|Hu];
      [apply (bool_decide_unpack _); by vm_compute|].
    by apply elem_of_nil in Hu.
Defined.
